(** * Mount lifecycle of [nova/virt/disk/mount/api.py]

    A shallow embedding of the [Mount] class: the session object is a
    record, the methods are computations in a state-and-exception monad
    over the session, the host's file system and the log of external
    commands, and the overridable members ([mode], [get_dev],
    [unget_dev]) are a record of methods so that the loop and nbd
    subclasses can be plugged in. *)

From Stdlib Require Import String Ascii List ZArith Bool DecimalString.
Import ListNotations.
Open Scope string_scope.

(** ** Python values and the [os.path] helpers used by the class *)

Module Py.

(** What [self.partition] can hold: [None], an [int] handed to the
    constructor, or the [str] that [reset_dev] cuts out of a device
    name. *)
Inductive value : Type :=
| PNone
| PInt (z : Z)
| PStr (s : string).

(** [bool(s)] of a string. *)
Definition truthy_str (s : string) : bool := negb (s =? "").

(** [bool(v)] *)
Definition truthy (v : value) : bool :=
  match v with
  | PNone => false
  | PInt z => negb (z =? 0)%Z
  | PStr s => truthy_str s
  end.

(** [v == -1]: a [str] or [None] never equals an [int]. *)
Definition eq_minus_one (v : value) : bool :=
  match v with
  | PInt z => (z =? -1)%Z
  | _ => false
  end.

(** [str(v)], what [%s] prints. *)
Definition str (v : value) : string :=
  match v with
  | PNone => "None"
  | PInt z => NilZero.string_of_int (Z.to_int z)
  | PStr s => s
  end.

(** [str(o)] of an optional string ([self.mode] is [None] in the base
    class). *)
Definition str_opt (o : option string) : string :=
  match o with
  | None => "None"
  | Some s => s
  end.

(** [bool(o)] of an optional string. *)
Definition truthy_opt (o : option string) : bool :=
  match o with
  | None => false
  | Some s => truthy_str s
  end.

(** [s.rsplit(sep, 1)] when [sep] occurs in [s]: the text before the
    last [sep] and the text after it; [None] when [sep] does not occur
    (Python then returns the one-element list [[s]]). *)
Fixpoint rsplit1 (sep : ascii) (s : string) : option (string * string) :=
  match s with
  | EmptyString => None
  | String c r =>
      match rsplit1 sep r with
      | Some (h, t) => Some (String c h, t)
      | None => if Ascii.eqb c sep then Some (EmptyString, r) else None
      end
  end.

(** [os.path.basename] *)
Definition basename (p : string) : string :=
  match rsplit1 "/" p with
  | Some (_, t) => t
  | None => p
  end.

(** [os.path.isabs] *)
Definition isabs (p : string) : bool := prefix "/" p.

(** [s.endswith('/')] *)
Fixpoint ends_with_slash (s : string) : bool :=
  match s with
  | EmptyString => false
  | String c EmptyString => Ascii.eqb c "/"
  | String _ r => ends_with_slash r
  end.

(** [os.path.join(a, b)] *)
Definition join (a b : string) : string :=
  if isabs b then b
  else if (a =? "") || ends_with_slash a then a ++ b
  else a ++ "/" ++ b.

(** [f % args] for a format [f] whose only conversions are [%s], each
    argument already turned into its [str].  The formats of the class
    are fixed and get as many arguments as they have conversions; with
    too few Python raises, here the rest of the format is kept. *)
Fixpoint percent (f : string) (args : list string) : string :=
  match f with
  | String "%" (String "s" rest) =>
      match args with
      | a :: args' =>
          match rest with
          | EmptyString => a
          | _ => a ++ percent rest args'
          end
      | [] => f
      end
  | String c rest => String c (percent rest args)
  | EmptyString => EmptyString
  end.

(** The exceptions that can leave a method. *)
Inductive exn : Type :=
| AssertionError
| TypeError
| ValueError
| ProcessExecutionError (msg : string)
| OtherError (msg : string).

Inductive result (A : Type) : Type :=
| Ok (a : A)
| Raise (e : exn).
Arguments Ok {A} a.
Arguments Raise {A} e.

End Py.
Import Py.

(** ** The host: file system and command runner

    [nova.utils] and the operating system are outside the class.  The
    host is an abstract world with an existence test for paths
    ([os.path.exists]) and the two command runners: [utils.trycmd],
    which hands back [(out, err)] and does not raise when the command
    fails, and [utils.execute], which may raise.  Both may change the
    world.  Positional arguments are passed as they are in the source,
    so [None] can occur among them. *)

Definition argv : Type := list (option string).

Class Host : Type := {
  World : Type;
  os_path_exists : World -> string -> bool;
  (** [utils.trycmd], with its arguments [run_as_root] and
      [discard_warnings] *)
  utils_trycmd : argv -> bool -> bool -> World -> (string * string) * World;
  (** [utils.execute], with its argument [run_as_root] *)
  utils_execute : argv -> bool -> World -> result (string * string) * World
}.

(** ** The session object *)

Record Mount : Type := mkMount {
  (* Input *)
  image : string;
  partition : value;
  mount_dir : string;
  (* Output *)
  error : string;
  (* Internal *)
  linked : bool;
  mapped : bool;
  mounted : bool;
  automapped : bool;
  device : option string;
  mapped_device : option string
}.

Definition with_partition (v : value) (m : Mount) : Mount :=
  mkMount (image m) v (mount_dir m) (error m) (linked m) (mapped m)
          (mounted m) (automapped m) (device m) (mapped_device m).
Definition with_error (e : string) (m : Mount) : Mount :=
  mkMount (image m) (partition m) (mount_dir m) e (linked m) (mapped m)
          (mounted m) (automapped m) (device m) (mapped_device m).
Definition with_linked (b : bool) (m : Mount) : Mount :=
  mkMount (image m) (partition m) (mount_dir m) (error m) b (mapped m)
          (mounted m) (automapped m) (device m) (mapped_device m).
Definition with_mapped (b : bool) (m : Mount) : Mount :=
  mkMount (image m) (partition m) (mount_dir m) (error m) (linked m) b
          (mounted m) (automapped m) (device m) (mapped_device m).
Definition with_mounted (b : bool) (m : Mount) : Mount :=
  mkMount (image m) (partition m) (mount_dir m) (error m) (linked m) (mapped m)
          b (automapped m) (device m) (mapped_device m).
Definition with_automapped (b : bool) (m : Mount) : Mount :=
  mkMount (image m) (partition m) (mount_dir m) (error m) (linked m) (mapped m)
          (mounted m) b (device m) (mapped_device m).
Definition with_device (d : option string) (m : Mount) : Mount :=
  mkMount (image m) (partition m) (mount_dir m) (error m) (linked m) (mapped m)
          (mounted m) (automapped m) d (mapped_device m).
Definition with_mapped_device (d : option string) (m : Mount) : Mount :=
  mkMount (image m) (partition m) (mount_dir m) (error m) (linked m) (mapped m)
          (mounted m) (automapped m) (device m) d.

(** ** The monad: session, world and command log, with exceptions *)

Section Monad.
Context {H : Host}.

Record state : Type := mkState {
  self : Mount;
  world : World;
  (** every command handed to the command runner, oldest first *)
  trace : list argv
}.

Definition M (A : Type) : Type := state -> result A * state.

Definition ret {A} (a : A) : M A := fun s => (Ok a, s).

Definition bind {A B} (m : M A) (k : A -> M B) : M B :=
  fun s =>
    match m s with
    | (Ok a, s') => k a s'
    | (Raise e, s') => (Raise e, s')
    end.

Definition raise {A} (e : exn) : M A := fun s => (Raise e, s).

(** [assert(b)] *)
Definition assert (b : bool) : M unit :=
  if b then ret tt else raise AssertionError.

Definition get_self : M Mount := fun s => (Ok (self s), s).

Definition update (f : Mount -> Mount) : M unit :=
  fun s => (Ok tt, mkState (f (self s)) (world s) (trace s)).

(** [os.path.exists(p)]; [os.stat(None)] raises [TypeError]. *)
Definition path_exists (p : option string) : M bool :=
  fun s =>
    match p with
    | None => (Raise TypeError, s)
    | Some p => (Ok (os_path_exists (world s) p), s)
    end.

Definition trycmd (a : argv) (run_as_root discard_warnings : bool)
  : M (string * string) :=
  fun s =>
    let '(r, w) := utils_trycmd a run_as_root discard_warnings (world s) in
    (Ok r, mkState (self s) w (trace s ++ [a])).

Definition execute (a : argv) (run_as_root : bool) : M (string * string) :=
  fun s =>
    let '(r, w) := utils_execute a run_as_root (world s) in
    (r, mkState (self s) w (trace s ++ [a])).

(** [try: body finally: fin]; [fin] sees the value of the body when
    the body finished.  An exception of [fin] replaces the one of the
    body. *)
Definition try_finally {A} (body : M A) (fin : option A -> M unit) : M A :=
  fun s =>
    match body s with
    | (Ok a, s1) =>
        match fin (Some a) s1 with
        | (Ok _, s2) => (Ok a, s2)
        | (Raise e, s2) => (Raise e, s2)
        end
    | (Raise e, s1) =>
        match fin None s1 with
        | (Ok _, s2) => (Raise e, s2)
        | (Raise e', s2) => (Raise e', s2)
        end
    end.

End Monad.

Declare Scope mount_scope.
Delimit Scope mount_scope with mount.
Notation "x <- c ;; k" := (bind c (fun x => k))
  (at level 61, c at next level, right associativity) : mount_scope.
Notation "c ;;; k" := (bind c (fun _ => k))
  (at level 61, right associativity) : mount_scope.
Open Scope mount_scope.

(** ** The class

    [mode], [get_dev] and [unget_dev] are the members that the loop and
    nbd subclasses override; the other methods reach them through
    [self]. *)

Record MountClass {H : Host} : Type := {
  mode : option string;
  get_dev : M bool;
  unget_dev : M unit
}.

(** The members as the base class defines them. *)
Module Base.
Section Base.
Context {H : Host}.

Definition mode : option string := None.

Definition get_dev : M bool :=
  update (with_device None) ;;;
  update (with_linked true) ;;;
  ret true.

Definition unget_dev : M unit :=
  update (with_linked false).

End Base.
End Base.

Definition Mount_base {H : Host} : MountClass :=
  {| mode := Base.mode; get_dev := Base.get_dev; unget_dev := Base.unget_dev |}.

Section Methods.
Context {H : Host}.
Variable cls : MountClass.

(** [if b: c] *)
Definition when (b : bool) (c : M unit) : M unit :=
  if b then c else ret tt.

(** The gettext hook [_]; no catalogue is loaded, a message is its own
    translation. *)
Definition gettext (msgid : string) : string := msgid.

Definition reset_dev : M unit :=
  m <- get_self ;;
  if negb (truthy_opt (device m)) then ret tt
  else
    update (with_linked true) ;;;
    update (with_mapped true) ;;;
    update (with_mounted true) ;;;
    match device m with
    | None => ret tt
    | Some dev =>
        ex <- (if isabs dev then path_exists (Some dev) else ret false) ;;
        if ex then
          if prefix "/dev/mapper/" dev then
            match rsplit1 "p" (basename dev) with
            | None => raise ValueError
            | Some (base, part) =>
                update (with_partition (PStr part)) ;;;
                update (with_device (Some (join "/dev" base)))
            end
          else ret tt
        else ret tt
    end.

(** [Mount(image, mount_dir, partition, device)] on a host in world
    [w] with command log [t]. *)
Definition __init__ (image mount_dir : string) (partition : value)
           (device : option string) (w : World) (t : list argv)
  : result unit * state :=
  reset_dev
    (mkState (mkMount image partition mount_dir "" false false false false
                      device device) w t).

Definition automapped_path (dev : string) (part : value) : string :=
  percent "/dev/%sp%s" [basename dev; str part].

Definition map_path (dev : string) (part : value) : string :=
  percent "/dev/mapper/%sp%s" [basename dev; str part].

Definition kpartx_a (dev : string) : argv :=
  [Some "kpartx"; Some "-a"; Some dev].

(** The four-way branch of [map_dev]; each [elif] tests its condition
    only when the ones before it were false, and [and] stops at a
    false left operand.  [m] is [self] as [map_dev] found it: the
    branch assigns neither [partition] nor [device]. *)
Definition map_branches (m : Mount) (dev : string) : M unit :=
  let automapped_path := automapped_path dev (partition m) in
  if eq_minus_one (partition m) then
    update (with_error
              (percent (gettext "partition search unsupported with %s")
                       [str_opt (mode cls)]))
  else
    c2 <- (if truthy (partition m)
           then (e <- path_exists (Some automapped_path) ;; ret (negb e))
           else ret false) ;;
    if c2 then
      let map_path := map_path dev (partition m) in
      pre <- path_exists (Some map_path) ;;
      assert (negb pre) ;;;
      r <- trycmd (kpartx_a dev) true true ;;
      let err := snd r in
      post <- path_exists (Some map_path) ;;
      if negb post then
        let err :=
          if negb (truthy_str err)
          then percent (gettext "partition %s not found") [str (partition m)]
          else err in
        update (with_error
                  (percent (gettext "Failed to map partitions: %s") [err]))
      else
        update (with_mapped_device (Some map_path)) ;;;
        update (with_mapped true)
    else
      c3 <- (if truthy (partition m)
             then path_exists (Some automapped_path)
             else ret false) ;;
      if c3 then
        update (with_mapped_device (Some automapped_path)) ;;;
        update (with_mapped true) ;;;
        update (with_automapped true)
      else
        update (with_mapped_device (device m)) ;;;
        update (with_mapped true).

Definition map_dev : M bool :=
  m <- get_self ;;
  ex <- path_exists (device m) ;;
  assert ex ;;;
  match device m with
  | None => raise TypeError
  | Some dev =>
      map_branches m dev ;;;
      m' <- get_self ;;
      ret (mapped m')
  end.

Definition kpartx_d (dev : option string) : argv :=
  [Some "kpartx"; Some "-d"; dev].

Definition unmap_dev : M unit :=
  m <- get_self ;;
  if negb (mapped m) then ret tt
  else
    when (truthy (partition m) && negb (automapped m))
         (execute (kpartx_d (device m)) true ;;; ret tt) ;;;
    update (with_mapped false) ;;;
    update (with_automapped false).

Definition mount_cmd (m : Mount) : argv :=
  [Some "mount"; mapped_device m; Some (mount_dir m)].

Definition mnt_dev : M bool :=
  m <- get_self ;;
  r <- trycmd (mount_cmd m) true false ;;
  let err := snd r in
  if truthy_str err then
    update (with_error
              (percent (gettext "Failed to mount filesystem: %s") [err])) ;;;
    ret false
  else
    update (with_mounted true) ;;;
    ret true.

Definition umount_cmd (m : Mount) : argv :=
  [Some "umount"; mapped_device m].

Definition unmnt_dev : M unit :=
  m <- get_self ;;
  if negb (mounted m) then ret tt
  else
    execute (umount_cmd m) true ;;;
    update (with_mounted false).

Definition do_umount : M unit :=
  (m <- get_self ;; when (mounted m) unmnt_dev) ;;;
  (m <- get_self ;; when (mapped m) unmap_dev) ;;;
  (m <- get_self ;; when (linked m) (unget_dev cls)).

(** [self.get_dev() and self.map_dev() and self.mnt_dev()] *)
Definition stages : M bool :=
  a <- get_dev cls ;;
  if a then
    b <- map_dev ;;
    if b then mnt_dev else ret false
  else ret false.

Definition do_mount : M bool :=
  try_finally stages
    (fun r =>
       let status := match r with Some b => b | None => false end in
       when (negb status) do_umount).

End Methods.

(** ** Device backends *)

(** Modelled from the spec: the loop and nbd subclasses of [Mount] are
    not part of the source tree.  A backend exposes
    [Attach() -> (rawDevicePath, ok)] and [Detach(rawDevicePath)];
    attaching sets [deviceAttached] and the raw device path on success
    and records nothing as mapped, and fails when the backend cannot
    produce a device; detaching never fails loudly and clears
    [deviceAttached]. *)
Definition backend_class {H : Host} (name : string)
           (attach : World -> option string * World)
           (detach : option string -> World -> World) : MountClass :=
  {| mode := Some name;
     get_dev := fun s =>
       match attach (world s) with
       | (Some dev, w) =>
           (Ok true,
            mkState (with_linked true (with_device (Some dev) (self s)))
                    w (trace s))
       | (None, w) => (Ok false, mkState (self s) w (trace s))
       end;
     unget_dev := fun s =>
       (Ok tt,
        mkState (with_linked false (self s))
                (detach (device (self s)) (world s)) (trace s)) |}.

(** ** A simulated host

    A small concrete host on which the methods can be run: the world
    lists the device nodes that exist and scripts what the external
    tools will do. *)
Module Sim.

Record world : Type := mkWorld {
  nodes : list string;          (* paths that exist *)
  kpartx_creates : list string; (* nodes that [kpartx -a] will create *)
  kpartx_err : string;          (* what [kpartx -a] reports *)
  mount_err : string;           (* what [mount] reports *)
  umount_fails : bool;          (* whether [umount] exits non-zero *)
  free_device : option string   (* the device the backend can attach *)
}.

Definition node_exists (w : world) (p : string) : bool :=
  existsb (String.eqb p) (nodes w).

Definition is_cmd (name : string) (a : argv) : bool :=
  match a with
  | Some c :: _ => c =? name
  | _ => false
  end.

Definition run_try (a : argv) (_ _ : bool) (w : world)
  : (string * string) * world :=
  if is_cmd "kpartx" a then
    (("", kpartx_err w),
     mkWorld (nodes w ++ kpartx_creates w) (kpartx_creates w)
             (kpartx_err w) (mount_err w) (umount_fails w) (free_device w))
  else if is_cmd "mount" a then (("", mount_err w), w)
  else (("", ""), w).

Definition run_exec (a : argv) (_ : bool) (w : world)
  : result (string * string) * world :=
  if is_cmd "umount" a && umount_fails w
  then (Raise (ProcessExecutionError "umount: device is busy"), w)
  else (Ok ("", ""), w).

#[global] Instance host : Host :=
  {| World := world;
     os_path_exists := node_exists;
     utils_trycmd := run_try;
     utils_execute := run_exec |}.

Definition attach (w : world) : option string * world :=
  match free_device w with
  | Some dev =>
      (Some dev,
       mkWorld (nodes w ++ [dev]) (kpartx_creates w) (kpartx_err w)
               (mount_err w) (umount_fails w) None)
  | None => (None, w)
  end.

Definition detach (dev : option string) (w : world) : world :=
  mkWorld (nodes w) (kpartx_creates w) (kpartx_err w) (mount_err w)
          (umount_fails w) dev.

Definition LoopMount : MountClass := backend_class "loop" attach detach.

(** A fresh session for image [disk.img] to be mounted on [/mnt]. *)
Definition fresh (part : value) (w : world) : state :=
  snd (__init__ "disk.img" "/mnt" part None w []).

(** A session re-created around the device [dev]. *)
Definition reattached (part : value) (dev : string) (w : world) : state :=
  snd (__init__ "disk.img" "/mnt" part (Some dev) w []).

(** The session after the loop backend has attached the image. *)
Definition attached (part : value) (w : world) : state :=
  snd (get_dev LoopMount (fresh part w)).

(** Sample worlds and sessions. *)

(** A free loop device and an image whose file system [mount] rejects. *)
Definition wrong_fs : world :=
  mkWorld [] [] "" "wrong fs type" false (Some "/dev/loop0").

(** A free loop device and a partitioned image: [kpartx -a] creates the
    node of partition 2 and everything else works. *)
Definition partitioned : world :=
  mkWorld [] ["/dev/mapper/loop0p2"] "" "" false (Some "/dev/loop0").

(** A free loop device and an image without partitions: [kpartx -a]
    creates nothing and reports nothing. *)
Definition unpartitioned : world :=
  mkWorld [] [] "" "" false (Some "/dev/loop0").

(** A free loop device; [kpartx -a] complains and still creates the
    node of partition 1. *)
Definition noisy_kpartx : world :=
  mkWorld [] ["/dev/mapper/loop0p1"] "kpartx: warning" "" false
          (Some "/dev/loop0").

(** A free loop device whose partition 1 the kernel maps by itself. *)
Definition kernel_mapped : world :=
  mkWorld ["/dev/loop0p1"] [] "" "" false (Some "/dev/loop0").

(** A free loop device and a device-mapper node left behind for its
    partition 1. *)
Definition left_over : world :=
  mkWorld ["/dev/mapper/loop0p1"] [] "" "" false (Some "/dev/loop0").

(** No free loop device, and a raw device path that does not exist. *)
Definition no_device : world :=
  mkWorld [] [] "" "" false None.

(** A loop device attached by an earlier process, whose image has no
    partitions. *)
Definition running : world :=
  mkWorld ["/dev/loop0"] [] "" "" false None.

(** The session after the loop backend has attached the image and
    [map_dev] has been called. *)
Definition mapped_session (part : value) (w : world) : state :=
  snd (map_dev LoopMount (attached part w)).

(** A loop device attached by an earlier process, with a file system
    that [mount] rejects. *)
Definition running_wrong_fs : world :=
  mkWorld ["/dev/loop0"] [] "" "wrong fs type" false None.

(** A session around that device after [do_umount()] and a [mnt_dev()]
    that failed: no stage is held and [error] is set. *)
Definition failed_session : state :=
  snd (mnt_dev
         (snd (do_umount Mount_base
                 (reattached PNone "/dev/loop0" running_wrong_fs)))).

(** Partition 2 of a partitioned image, mounted through the loop
    backend. *)
Definition mounted_session : state :=
  snd (do_mount LoopMount (fresh (PInt 2) partitioned)).

End Sim.

(** ** The factories *)

(** [needle in hay] on strings. *)
Fixpoint contains (needle hay : string) : bool :=
  prefix needle hay ||
  match hay with
  | EmptyString => false
  | String _ rest => contains needle rest
  end.

(** What [importutils.import_object(import_str, *args)] is asked for:
    the dotted name of the class and the positional arguments handed to
    its constructor.  [device_arg] is [None] when no fourth argument is
    passed. *)
Record import_object : Type := mkImport {
  import_str : string;
  imgfile_arg : string;
  mountdir_arg : string;
  partition_arg : value;
  device_arg : option string
}.

Definition instance_for_format (imgfile mountdir : string) (partition : value)
           (imgfmt : string) : import_object :=
  if imgfmt =? "raw" then
    mkImport "nova.virt.disk.mount.loop.LoopMount"
             imgfile mountdir partition None
  else
    mkImport "nova.virt.disk.mount.nbd.NbdMount"
             imgfile mountdir partition None.

Definition instance_for_device (imgfile mountdir : string) (partition : value)
           (device : string) : import_object :=
  if contains "loop" device then
    mkImport "nova.virt.disk.mount.loop.LoopMount"
             imgfile mountdir partition (Some device)
  else
    mkImport "nova.virt.disk.mount.nbd.NbdMount"
             imgfile mountdir partition (Some device).

(** ** A second simulated host

    The worlds of [Sim], with a command runner on which [kpartx -d]
    exits non-zero, so that [utils.execute] raises. *)
Module Busy.

Definition run_exec (a : argv) (r : bool) (w : Sim.world)
  : result (string * string) * Sim.world :=
  if Sim.is_cmd "kpartx" a
  then (Raise (ProcessExecutionError "kpartx: device is busy"), w)
  else Sim.run_exec a r w.

Definition host : Host :=
  {| World := Sim.world;
     os_path_exists := Sim.node_exists;
     utils_trycmd := Sim.run_try;
     utils_execute := run_exec |}.

(** A session re-created around the device [dev] on this host. *)
Definition reattached (part : value) (dev : string) (w : Sim.world)
  : @state host :=
  snd (@__init__ host "disk.img" "/mnt" part (Some dev) w []).

End Busy.

(** More sample worlds and sessions on the first simulated host. *)
Module Samples.

(** A loop device attached by an earlier process on which [umount]
    exits non-zero. *)
Definition stuck : Sim.world :=
  Sim.mkWorld ["/dev/loop0"] [] "" "" true None.

(** A logical volume under [/dev/mapper] whose name has no [p]. *)
Definition volume : Sim.world :=
  Sim.mkWorld ["/dev/mapper/vg0-root"] [] "" "" false None.

(** An attached loop device; [kpartx -a] creates the node of
    partition 1. *)
Definition kpartx_ready : Sim.world :=
  Sim.mkWorld ["/dev/loop0"] ["/dev/mapper/loop0p1"] "" "" false None.

(** The same after [kpartx -a] has run. *)
Definition kpartx_done : Sim.world :=
  Sim.mkWorld ["/dev/loop0"; "/dev/mapper/loop0p1"] ["/dev/mapper/loop0p1"]
              "" "" false None.

(** An attached loop device whose partition 1 the kernel has mapped. *)
Definition auto_ready : Sim.world :=
  Sim.mkWorld ["/dev/loop0"; "/dev/loop0p1"] [] "" "" false None.

(** A session on the attached device [/dev/loop0] that holds no stage
    yet: built around the device and torn down once. *)
Definition released (part : value) (w : Sim.world) : state :=
  snd (do_umount Mount_base (Sim.reattached part "/dev/loop0" w)).

End Samples.

(** ** A third simulated host

    The worlds of [Sim], with a command runner on which a busy device
    makes [umount] exit non-zero once: the failed attempt clears
    [umount_fails], so that the next [umount] goes through. *)
Module Flaky.

Definition run_exec (a : argv) (r : bool) (w : Sim.world)
  : result (string * string) * Sim.world :=
  if Sim.is_cmd "umount" a && Sim.umount_fails w
  then (Raise (ProcessExecutionError "umount: device is busy"),
        Sim.mkWorld (Sim.nodes w) (Sim.kpartx_creates w) (Sim.kpartx_err w)
                    (Sim.mount_err w) false (Sim.free_device w))
  else (Ok ("", ""), w).

Definition host : Host :=
  {| World := Sim.world;
     os_path_exists := Sim.node_exists;
     utils_trycmd := Sim.run_try;
     utils_execute := run_exec |}.

(** A session re-created around the device [dev] on this host. *)
Definition reattached (part : value) (dev : string) (w : Sim.world)
  : @state host :=
  snd (@__init__ host "disk.img" "/mnt" part (Some dev) w []).

End Flaky.

(** ** The fixtures of [test_server_group_quotas.py]

    The two helpers that build server-group dictionaries for the tests.
    A dictionary is the list of its items in insertion order, with one
    item per key. *)
Module Fixtures.

(** The values the helpers handle. *)
#[warnings="-register-all"] Inductive pyval : Type :=
| VNone
| VInt (z : Z)
| VStr (s : string)
| VList (l : list pyval)
| VDict (d : list (string * pyval)).

Definition dict : Type := list (string * pyval).

(** [d.get(k)]: the value under [k], if any. *)
Fixpoint get (k : string) (d : dict) : option pyval :=
  match d with
  | [] => None
  | (k', v) :: d' => if k' =? k then Some v else get k d'
  end.

(** [k in d] *)
Definition has_key (k : string) (d : dict) : bool :=
  match get k d with
  | Some _ => true
  | None => false
  end.

(** [del d[k]] *)
Definition remove (k : string) (d : dict) : dict :=
  filter (fun kv => negb (fst kv =? k)) d.

(** [d[k] = v]: an existing key keeps its place, a new one goes to the
    end. *)
Fixpoint setitem (k : string) (v : pyval) (d : dict) : dict :=
  match d with
  | [] => [(k, v)]
  | (k', v') :: d' =>
      if k' =? k then (k, v) :: d' else (k', v') :: setitem k v d'
  end.

(** [d.pop(k)]: the value and what is left; [None] stands for
    [KeyError]. *)
Definition pop (k : string) (d : dict) : option (pyval * dict) :=
  match get k d with
  | Some v => Some (v, remove k d)
  | None => None
  end.

(** [d.setdefault(k, v)], for its effect on [d]. *)
Definition setdefault (k : string) (v : pyval) (d : dict) : dict :=
  if has_key k d then d else setitem k v d.

(** [attrs[dst] = attrs.pop(src)]; the right-hand side is evaluated
    first.  Every use is guarded by [src in attrs]. *)
Definition pop_into (src dst : string) (attrs : dict) : dict :=
  match pop src attrs with
  | Some (v, attrs') => setitem dst v attrs'
  | None => attrs
  end.

Definition server_group_template (kwargs : dict) : dict :=
  let sgroup := kwargs in
  setdefault "name" (VStr "test") sgroup.

Section Db.
(** [fakes.FAKE_USER_ID] and [fakes.FAKE_PROJECT_ID] *)
Variables FAKE_USER_ID FAKE_PROJECT_ID : pyval.

Definition server_group_db (sg : dict) : dict :=
  let attrs := sg in
  let attrs := if has_key "id" attrs then pop_into "id" "uuid" attrs
               else attrs in
  let attrs := if has_key "policies" attrs
               then pop_into "policies" "policies" attrs
               else setitem "policies" (VList []) attrs in
  let attrs := if has_key "members" attrs
               then pop_into "members" "members" attrs
               else setitem "members" (VList []) attrs in
  let attrs := if has_key "metadata" attrs
               then pop_into "metadata" "metadetails" attrs
               else setitem "metadetails" (VDict []) attrs in
  let attrs := setitem "deleted" (VInt 0) attrs in
  let attrs := setitem "deleted_at" VNone attrs in
  let attrs := setitem "created_at" VNone attrs in
  let attrs := setitem "updated_at" VNone attrs in
  let attrs := if negb (has_key "user_id" attrs)
               then setitem "user_id" FAKE_USER_ID attrs else attrs in
  let attrs := if negb (has_key "project_id" attrs)
               then setitem "project_id" FAKE_PROJECT_ID attrs else attrs in
  let attrs := setitem "id" (VInt 7) attrs in
  attrs.

End Db.

(** [AttrDict.__getattr__]: [self[k]], which raises [KeyError] for a
    missing key. *)
Inductive KeyError : Type := mkKeyError (k : string).

Definition __getattr__ (self : dict) (k : string) : pyval + KeyError :=
  match get k self with
  | Some v => inl v
  | None => inr (mkKeyError k)
  end.

(** The three shapes of the [if] blocks of [server_group_db], for the
    proofs. *)
Definition rename_key (src dst : string) (attrs : dict) : dict :=
  if has_key src attrs then pop_into src dst attrs else attrs.

Definition move_or_default (src dst : string) (v0 : pyval) (attrs : dict)
  : dict :=
  if has_key src attrs then pop_into src dst attrs else setitem dst v0 attrs.

Definition default_key (k : string) (v : pyval) (attrs : dict) : dict :=
  if negb (has_key k attrs) then setitem k v attrs else attrs.

(** [d.get(k, v0)] *)
Definition get_or (k : string) (v0 : pyval) (d : dict) : pyval :=
  match get k d with
  | Some v => v
  | None => v0
  end.

(** The keys of a dictionary, in order. *)
Definition keys (d : dict) : list string := map fst d.

(** The keys [server_group_db] assigns or removes. *)
Definition touched : list string :=
  ["id"; "uuid"; "policies"; "members"; "metadata"; "metadetails"; "deleted";
   "deleted_at"; "created_at"; "updated_at"; "user_id"; "project_id"].

End Fixtures.

(** Two sessions that differ at most in their stage flags
    ([linked], [mapped], [mounted], [automapped]). *)
Definition same_but_flags (m m' : Mount) : Prop :=
  image m' = image m /\
  partition m' = partition m /\
  mount_dir m' = mount_dir m /\
  error m' = error m /\
  device m' = device m /\
  mapped_device m' = mapped_device m.

(** ** What the theorems ask of a subclass *)

Section Laws.
Context {H : Host}.

(** [unget_dev], when it returns, has released the device: [linked] is
    false and the other two stage flags are as they were. *)
Definition detaches (cls : MountClass) : Prop :=
  forall s s',
    unget_dev cls s = (Ok tt, s') ->
    linked (self s') = false /\
    mapped (self s') = mapped (self s) /\
    mounted (self s') = mounted (self s).

(** [get_dev] and [unget_dev] leave [mapped] and [mounted] alone
    however they end, [get_dev] never clears [linked], and a [get_dev]
    that reports success has set [linked]. *)
Definition keeps_stage_flags (cls : MountClass) : Prop :=
  (forall s r s',
      get_dev cls s = (r, s') ->
      mapped (self s') = mapped (self s) /\
      mounted (self s') = mounted (self s) /\
      (linked (self s) = true -> linked (self s') = true) /\
      (r = Ok true -> linked (self s') = true)) /\
  (forall s r s',
      unget_dev cls s = (r, s') ->
      mapped (self s') = mapped (self s) /\
      mounted (self s') = mounted (self s)).

(** All three stage flags are false. *)
Definition idle (m : Mount) : Prop :=
  linked m = false /\ mapped m = false /\ mounted m = false.

(** The stage flags form a prefix: [mounted] only with [mapped],
    [mapped] only with [linked]. *)
Definition prefix_ok (m : Mount) : bool :=
  implb (mounted m) (mapped m) && implb (mapped m) (linked m).

(** The public operations of a session, for sequences of calls. *)
Inductive op : Type :=
| GetDev | UngetDev | MapDev | UnmapDev | MntDev | UnmntDev
| DoMount | DoUmount.

(** Calling an operation; the state it leaves is the state the caller
    sees, whether the call returned or raised. *)
Definition call (cls : MountClass) (o : op) (s : state) : state :=
  match o with
  | GetDev => snd (get_dev cls s)
  | UngetDev => snd (unget_dev cls s)
  | MapDev => snd (map_dev cls s)
  | UnmapDev => snd (unmap_dev s)
  | MntDev => snd (mnt_dev s)
  | UnmntDev => snd (unmnt_dev s)
  | DoMount => snd (do_mount cls s)
  | DoUmount => snd (do_umount cls s)
  end.

Fixpoint run (cls : MountClass) (ops : list op) (s : state) : state :=
  match ops with
  | [] => s
  | o :: ops' => run cls ops' (call cls o s)
  end.

(** The order the class documents for its operations ("get, map and
    mount, to be called in that order", undone in reverse): a stage is
    entered only on top of the one below it and left only when the one
    above it is not held. *)
Definition in_order (m : Mount) (o : op) : bool :=
  match o with
  | MapDev => linked m
  | MntDev => mapped m
  | UnmapDev => negb (mounted m)
  | UngetDev => negb (mapped m)
  | GetDev | UnmntDev | DoMount | DoUmount => true
  end.

Fixpoint all_in_order (cls : MountClass) (ops : list op) (s : state) : bool :=
  match ops with
  | [] => true
  | o :: ops' =>
      in_order (self s) o && all_in_order cls ops' (call cls o s)
  end.

(** The descriptions [map_dev] can leave in [error]. *)
Definition map_failure (cls : MountClass) (m : Mount) (msg : string) : Prop :=
  msg = "partition search unsupported with " ++ str_opt (mode cls) \/
  exists err,
    msg = "Failed to map partitions: "
          ++ (if truthy_str err then err
              else "partition " ++ str (partition m) ++ " not found").

End Laws.

(** ** Proof tools *)

Ltac unfold_methods :=
  unfold do_mount, try_finally, stages, do_umount, unmnt_dev, unmap_dev,
    mnt_dev, map_dev, map_branches, reset_dev, __init__, when, execute, trycmd,
    path_exists, assert, update, get_self, raise, bind, ret in *.

Ltac inv_pair :=
  repeat match goal with
    | H : (_, _) = (_, _) |- _ => inversion H; clear H; subst
    end.

Section BasicFacts.
Context {H : Host}.

Lemma base_detaches : detaches Mount_base.
Proof.
  intros s s' E. cbn in E. unfold Base.unget_dev, update in E.
  inv_pair. cbn. auto.
Qed.

Lemma base_keeps_stage_flags : keeps_stage_flags Mount_base.
Proof.
  split; intros s r s' E; cbn in E.
  - unfold Base.get_dev, bind, update, ret in E. inv_pair. cbn. auto.
  - unfold Base.unget_dev, update in E. inv_pair. cbn. auto.
Qed.

Lemma backend_detaches name attach detach :
  detaches (backend_class name attach detach).
Proof.
  intros s s' E. cbn in E. inv_pair. cbn. auto.
Qed.

Lemma backend_keeps_stage_flags name attach detach :
  keeps_stage_flags (backend_class name attach detach).
Proof.
  split; intros s r s' E; cbn in E.
  - destruct (attach (world s)) as [[dev|] w]; inv_pair; cbn; auto.
    repeat split; auto. discriminate.
  - inv_pair. cbn. auto.
Qed.

Variable cls : MountClass.

(** A session with no stage held is left alone by [do_umount]. *)
Lemma do_umount_idle s :
  idle (self s) -> do_umount cls s = (Ok tt, s).
Proof.
  intros (Hl & Hm & Hn). unfold_methods. rewrite Hn, Hm, Hl. reflexivity.
Qed.

(** [unmnt_dev] touches only [mounted]: cleared when it returns, kept
    when it raises. *)
Lemma unmnt_dev_flags s r s' :
  unmnt_dev s = (r, s') ->
  linked (self s') = linked (self s) /\
  mapped (self s') = mapped (self s) /\
  match r with
  | Ok _ => mounted (self s') = false
  | Raise _ => mounted (self s') = mounted (self s)
  end.
Proof.
  unfold_methods. intros E.
  destruct (mounted (self s)) eqn:Hm; cbn in E.
  - destruct (utils_execute _ _ _) as [[x|e] w]; inv_pair; cbn; auto.
  - inv_pair. auto.
Qed.

(** [unmap_dev] touches only [mapped] and [automapped]. *)
Lemma unmap_dev_flags s r s' :
  unmap_dev s = (r, s') ->
  linked (self s') = linked (self s) /\
  mounted (self s') = mounted (self s) /\
  match r with
  | Ok _ => mapped (self s') = false
  | Raise _ => mapped (self s') = mapped (self s)
  end.
Proof.
  unfold_methods. intros E.
  destruct (mapped (self s)) eqn:Hm; cbn in E.
  - destruct (truthy (partition (self s)) && negb (automapped (self s)));
      cbn in E.
    + destruct (utils_execute _ _ _) as [[x|e] w]; inv_pair; cbn; auto.
    + inv_pair. cbn. auto.
  - inv_pair. auto.
Qed.

(** [do_umount] unfolded into its three guarded steps. *)
Lemma do_umount_steps s :
  do_umount cls s =
  match (if mounted (self s) then unmnt_dev s else (Ok tt, s)) with
  | (Raise e, s1) => (Raise e, s1)
  | (Ok _, s1) =>
      match (if mapped (self s1) then unmap_dev s1 else (Ok tt, s1)) with
      | (Raise e, s2) => (Raise e, s2)
      | (Ok _, s2) =>
          if linked (self s2) then unget_dev cls s2 else (Ok tt, s2)
      end
  end.
Proof.
  unfold do_umount, bind, get_self, when, ret.
  assert (L : forall s2,
             (if linked (self s2) then unget_dev cls
              else fun s => (Ok tt, s)) s2
             = if linked (self s2) then unget_dev cls s2 else (Ok tt, s2))
    by (intros s2; destruct (linked (self s2)); reflexivity).
  destruct (mounted (self s)); [destruct (unmnt_dev s) as [[u|e] s1]|];
    try reflexivity.
  - destruct (mapped (self s1)); [destruct (unmap_dev s1) as [[v|e] s2]|];
      auto.
  - destruct (mapped (self s)); [destruct (unmap_dev s) as [[v|e] s2]|];
      auto.
Qed.

(** A [do_umount] that returns leaves no stage held. *)
Lemma do_umount_ok_idle s s' :
  detaches cls -> do_umount cls s = (Ok tt, s') -> idle (self s').
Proof.
  intros Hd E. rewrite do_umount_steps in E. unfold idle.
  destruct (if mounted (self s) then unmnt_dev s else (Ok tt, s))
    as [[u|e] s1] eqn:E1; [|discriminate].
  assert (F1 : mounted (self s1) = false /\
               linked (self s1) = linked (self s) /\
               mapped (self s1) = mapped (self s)).
  { destruct (mounted (self s)) eqn:Hm.
    - apply unmnt_dev_flags in E1. tauto.
    - inv_pair. auto. }
  destruct (if mapped (self s1) then unmap_dev s1 else (Ok tt, s1))
    as [[v|e] s2] eqn:E2; [|discriminate].
  assert (F2 : mapped (self s2) = false /\
               linked (self s2) = linked (self s1) /\
               mounted (self s2) = mounted (self s1)).
  { destruct (mapped (self s1)) eqn:Hm.
    - apply unmap_dev_flags in E2. tauto.
    - inv_pair. auto. }
  destruct (linked (self s2)) eqn:Hl.
  - apply Hd in E. intuition congruence.
  - inv_pair. intuition congruence.
Qed.

End BasicFacts.

(** ** Rollback and teardown *)

Section Teardown.
Context {H : Host}.
Variable cls : MountClass.

(** [stages] returns [False] exactly through one of its three stages. *)
Lemma stages_false s s1 :
  stages cls s = (Ok false, s1) ->
  get_dev cls s = (Ok false, s1) \/
  (exists sa,
      get_dev cls s = (Ok true, sa) /\ map_dev cls sa = (Ok false, s1)) \/
  (exists sa sb,
      get_dev cls s = (Ok true, sa) /\ map_dev cls sa = (Ok true, sb) /\
      mnt_dev sb = (Ok false, s1)).
Proof.
  unfold stages, bind, ret. intros E.
  destruct (get_dev cls s) as [[[|]|e] sa]; try discriminate.
  - destruct (map_dev cls sa) as [[[|]|e] sb] eqn:Em; try discriminate.
    + right. right. exists sa, sb. auto.
    + right. left. exists sa. inv_pair. auto.
  - left. inv_pair. reflexivity.
Qed.

(** [do_mount] in terms of [stages] and [do_umount]. *)
Lemma do_mount_unfold s :
  do_mount cls s =
  match stages cls s with
  | (Ok true, s1) => (Ok true, s1)
  | (Ok false, s1) =>
      match do_umount cls s1 with
      | (Ok _, s2) => (Ok false, s2)
      | (Raise e, s2) => (Raise e, s2)
      end
  | (Raise e, s1) =>
      match do_umount cls s1 with
      | (Ok _, s2) => (Raise e, s2)
      | (Raise e', s2) => (Raise e', s2)
      end
  end.
Proof.
  unfold do_mount, try_finally, when.
  destruct (stages cls s) as [[[|]|e] s1]; reflexivity.
Qed.

End Teardown.

(** C1.  When [do_mount] returns [False], one of the three stages
    ([get_dev], [map_dev], [mnt_dev]) returned [False], [do_umount] has
    then run to its end on the state that stage left, and the session
    [do_mount] hands back has [linked], [mapped] and [mounted] all
    false. *)
Theorem do_mount_failure_rolls_back {H : Host} (cls : MountClass)
        (s s' : state) :
  detaches cls ->
  do_mount cls s = (Ok false, s') ->
  exists s1,
    (get_dev cls s = (Ok false, s1) \/
     (exists sa,
         get_dev cls s = (Ok true, sa) /\ map_dev cls sa = (Ok false, s1)) \/
     (exists sa sb,
         get_dev cls s = (Ok true, sa) /\ map_dev cls sa = (Ok true, sb) /\
         mnt_dev sb = (Ok false, s1))) /\
    do_umount cls s1 = (Ok tt, s') /\
    linked (self s') = false /\
    mapped (self s') = false /\
    mounted (self s') = false.
Proof.
  intros Hd E. rewrite do_mount_unfold in E.
  destruct (stages cls s) as [[[|]|e] s1] eqn:Es.
  - discriminate.
  - destruct (do_umount cls s1) as [[[]|e] s2] eqn:Eu; [|discriminate].
    inv_pair. exists s1. split; [apply stages_false; assumption|].
    split; [assumption|]. exact (do_umount_ok_idle cls s1 s' Hd Eu).
  - destruct (do_umount cls s1) as [[u|e'] s2]; discriminate.
Qed.

(** A mount that fails at the last stage on the simulated host: the loop
    device is attached, the whole device is "mapped", [mount] reports a
    wrong file system, and everything is rolled back. *)
Lemma do_mount_failure_rolls_back_witness :
  do_mount Sim.LoopMount (Sim.fresh PNone Sim.wrong_fs)
  = (Ok false, snd (do_mount Sim.LoopMount (Sim.fresh PNone Sim.wrong_fs))) /\
  exists s1,
    (get_dev Sim.LoopMount (Sim.fresh PNone Sim.wrong_fs) = (Ok false, s1) \/
     (exists sa,
         get_dev Sim.LoopMount (Sim.fresh PNone Sim.wrong_fs) = (Ok true, sa) /\
         map_dev Sim.LoopMount sa = (Ok false, s1)) \/
     (exists sa sb,
         get_dev Sim.LoopMount (Sim.fresh PNone Sim.wrong_fs) = (Ok true, sa) /\
         map_dev Sim.LoopMount sa = (Ok true, sb) /\
         mnt_dev sb = (Ok false, s1))) /\
    do_umount Sim.LoopMount s1
    = (Ok tt, snd (do_mount Sim.LoopMount (Sim.fresh PNone Sim.wrong_fs))) /\
    linked (self (snd (do_mount Sim.LoopMount (Sim.fresh PNone Sim.wrong_fs))))
    = false /\
    mapped (self (snd (do_mount Sim.LoopMount (Sim.fresh PNone Sim.wrong_fs))))
    = false /\
    mounted (self (snd (do_mount Sim.LoopMount (Sim.fresh PNone Sim.wrong_fs))))
    = false.
Proof.
  split; [vm_compute; reflexivity|].
  apply (do_mount_failure_rolls_back Sim.LoopMount
           (Sim.fresh PNone Sim.wrong_fs)
           (snd (do_mount Sim.LoopMount (Sim.fresh PNone Sim.wrong_fs)))).
  - apply backend_detaches.
  - vm_compute; reflexivity.
Defined.

(** A [do_umount] that raises has stopped before the end of the
    teardown: [umount] failed and the session is still mounted, or
    [kpartx -d] failed and it is still mapped, or the [unget_dev] of the
    class raised. *)
Lemma do_umount_raise_cases {H : Host} (cls : MountClass) (s s2 : state)
      (e : exn) :
  do_umount cls s = (Raise e, s2) ->
  mounted (self s2) = true \/
  mapped (self s2) = true \/
  exists s', linked (self s') = true /\ unget_dev cls s' = (Raise e, s2).
Proof.
  intros E. rewrite do_umount_steps in E.
  destruct (if mounted (self s) then unmnt_dev s else (Ok tt, s))
    as [[u|e1] s1] eqn:E1.
  - destruct (if mapped (self s1) then unmap_dev s1 else (Ok tt, s1))
      as [[v|e2] sb] eqn:E2.
    + destruct (linked (self sb)) eqn:L; [|discriminate E].
      right. right. exists sb. split; assumption.
    + inv_pair. destruct (mapped (self s1)) eqn:M; [|discriminate E2].
      apply unmap_dev_flags in E2. destruct E2 as (_ & _ & Hm).
      right. left. congruence.
  - inv_pair. destruct (mounted (self s)) eqn:N; [|discriminate E1].
    apply unmnt_dev_flags in E1. destruct E1 as (_ & _ & Hn).
    left. congruence.
Qed.

(** C2, as stated, fails: a session in which [umount] fails once.  The
    first [do_umount] raises at [umount] and leaves the session mounted,
    mapped and linked; the second goes through and clears all three, so
    two calls in a row do not leave the state that one call leaves. *)
Lemma do_umount_twice_counterexample :
  ~ (forall (H : Host) (cls : MountClass) (s : state),
        detaches cls ->
        self (snd (do_umount cls (snd (do_umount cls s))))
        = self (snd (do_umount cls s))).
Proof.
  intros Claim.
  assert (Differ :
            mounted
              (self (snd (do_umount Mount_base
                            (snd (do_umount Mount_base
                                    (Flaky.reattached PNone "/dev/loop0"
                                                      Samples.stuck))))))
            <> mounted
                 (self (snd (do_umount Mount_base
                               (Flaky.reattached PNone "/dev/loop0"
                                                 Samples.stuck)))))
    by (vm_compute; discriminate).
  apply Differ.
  rewrite (Claim Flaky.host Mount_base
                 (Flaky.reattached PNone "/dev/loop0" Samples.stuck)
                 (@base_detaches Flaky.host)).
  reflexivity.
Qed.

(** C2, amended.  A [do_umount] that has returned can be repeated at
    once without any effect: the second call returns and leaves the
    session (stage flags, device paths, error string), the world and the
    command log exactly as the first call left them.  On a session that
    holds no stage, and so on one just built without a device hint,
    [do_umount] changes nothing and runs no command.  A [do_umount]
    that raises has not finished: the session is still mounted or still
    mapped, or the [unget_dev] of the class raised. *)
Theorem do_umount_idempotent {H : Host} (cls : MountClass) :
  detaches cls ->
  (forall s s1,
      do_umount cls s = (Ok tt, s1) -> do_umount cls s1 = (Ok tt, s1)) /\
  (forall s,
      linked (self s) = false -> mapped (self s) = false ->
      mounted (self s) = false ->
      do_umount cls s = (Ok tt, s)) /\
  (forall image mount_dir partition w t,
      exists s0,
        __init__ image mount_dir partition None w t = (Ok tt, s0) /\
        do_umount cls s0 = (Ok tt, s0) /\
        world s0 = w /\ trace s0 = t) /\
  (forall s e s1,
      do_umount cls s = (Raise e, s1) ->
      mounted (self s1) = true \/
      mapped (self s1) = true \/
      exists s', linked (self s') = true /\ unget_dev cls s' = (Raise e, s1)).
Proof.
  intros Hd. split; [|split; [|split]].
  - intros s s1 E. apply do_umount_idle.
    exact (do_umount_ok_idle cls s s1 Hd E).
  - intros s Hl Hm Hn. apply do_umount_idle. repeat split; assumption.
  - intros image0 mount_dir0 partition0 w t.
    eexists. split; [reflexivity|]. split; [|split; reflexivity].
    apply do_umount_idle. repeat split; reflexivity.
  - intros s e s1 E. exact (do_umount_raise_cases cls s s1 e E).
Qed.

(** A mounted partition on the simulated host, torn down twice. *)
Lemma do_umount_idempotent_witness :
  do_umount Sim.LoopMount Sim.mounted_session
  = (Ok tt, snd (do_umount Sim.LoopMount Sim.mounted_session)) /\
  do_umount Sim.LoopMount (snd (do_umount Sim.LoopMount Sim.mounted_session))
  = (Ok tt, snd (do_umount Sim.LoopMount Sim.mounted_session)).
Proof.
  split; [vm_compute; reflexivity|].
  apply (proj1 (do_umount_idempotent Sim.LoopMount
                  (@backend_detaches Sim.host "loop" Sim.attach Sim.detach))
               Sim.mounted_session
               (snd (do_umount Sim.LoopMount Sim.mounted_session))).
  vm_compute; reflexivity.
Defined.

(** Whatever the subclass, a raising stage is followed by [do_umount]. *)
Lemma do_mount_raise {H : Host} (cls : MountClass) (s s1 : state) (e : exn) :
  stages cls s = (Raise e, s1) ->
  do_mount cls s =
  (match fst (do_umount cls s1) with
   | Ok _ => Raise e
   | Raise e' => Raise e'
   end, snd (do_umount cls s1)).
Proof.
  intros Es. rewrite do_mount_unfold, Es.
  destruct (do_umount cls s1) as [[u|e'] s2]; reflexivity.
Qed.

(** C9, as stated, fails: the teardown can raise too.  On a session
    built around [/dev/loop0] with a busy mount point, the base
    [get_dev] sets no device, [map_dev] raises [TypeError], the
    [finally] clause runs [do_umount], [umount] fails, and [do_mount]
    ends with the session still mounted, mapped and linked. *)
Lemma do_mount_teardown_raises_counterexample :
  ~ (forall (H : Host) (cls : MountClass) (s s1 : state) (e : exn),
        detaches cls ->
        stages cls s = (Raise e, s1) ->
        linked (self (snd (do_mount cls s))) = false /\
        mapped (self (snd (do_mount cls s))) = false /\
        mounted (self (snd (do_mount cls s))) = false).
Proof.
  intros Claim.
  assert (Held :
            mounted
              (self (snd (do_mount Mount_base
                            (Sim.reattached PNone "/dev/loop0" Samples.stuck))))
            <> false)
    by (vm_compute; discriminate).
  apply Held.
  apply (Claim Sim.host Mount_base
               (Sim.reattached PNone "/dev/loop0" Samples.stuck)
               (snd (stages Mount_base
                       (Sim.reattached PNone "/dev/loop0" Samples.stuck)))
               TypeError).
  - apply base_detaches.
  - vm_compute; reflexivity.
Qed.

(** C9, amended.  When a stage of [do_mount] raises, the [finally]
    clause runs [do_umount] on the state the stage left before anything
    propagates, and [do_mount] ends in an exception with the state
    [do_umount] left.  When the teardown ran to its end the exception is
    the stage's and no stage is held.  When the teardown raises too, its
    exception replaces the stage's and the teardown has not finished:
    the session is still mounted or still mapped, or the [unget_dev] of
    the class raised. *)
Theorem do_mount_exception_runs_teardown {H : Host} (cls : MountClass)
        (s s1 : state) (e : exn) :
  detaches cls ->
  stages cls s = (Raise e, s1) ->
  do_mount cls s =
  (match fst (do_umount cls s1) with
   | Ok _ => Raise e
   | Raise e' => Raise e'
   end, snd (do_umount cls s1)) /\
  match fst (do_umount cls s1) with
  | Ok _ =>
      linked (self (snd (do_mount cls s))) = false /\
      mapped (self (snd (do_mount cls s))) = false /\
      mounted (self (snd (do_mount cls s))) = false
  | Raise e' =>
      mounted (self (snd (do_mount cls s))) = true \/
      mapped (self (snd (do_mount cls s))) = true \/
      exists s',
        linked (self s') = true /\
        unget_dev cls s' = (Raise e', snd (do_mount cls s))
  end.
Proof.
  intros Hd Es. pose proof (do_mount_raise cls s s1 e Es) as E.
  split; [exact E|].
  rewrite E. cbn [snd].
  destruct (do_umount cls s1) as [[[]|e'] s2] eqn:Eu; cbn [fst snd].
  - exact (do_umount_ok_idle cls s1 s2 Hd Eu).
  - exact (do_umount_raise_cases cls s1 s2 e' Eu).
Qed.

(** Both ends on the simulated host with the base class, whose
    [get_dev] sets no device so that [map_dev] raises [TypeError].  On a
    fresh session the device "attached" by [get_dev] is released before
    the [TypeError] leaves [do_mount]; on a session around a busy mount
    point the failure of [umount] leaves [do_mount] instead, with the
    session still mounted. *)
Lemma do_mount_exception_runs_teardown_witness :
  (stages Mount_base (Sim.fresh PNone Sim.wrong_fs)
   = (Raise TypeError, snd (stages Mount_base (Sim.fresh PNone Sim.wrong_fs))) /\
   linked (self (snd (stages Mount_base (Sim.fresh PNone Sim.wrong_fs))))
   = true /\
   do_mount Mount_base (Sim.fresh PNone Sim.wrong_fs)
   = (Raise TypeError, snd (do_mount Mount_base (Sim.fresh PNone Sim.wrong_fs))) /\
   linked (self (snd (do_mount Mount_base (Sim.fresh PNone Sim.wrong_fs))))
   = false /\
   mapped (self (snd (do_mount Mount_base (Sim.fresh PNone Sim.wrong_fs))))
   = false /\
   mounted (self (snd (do_mount Mount_base (Sim.fresh PNone Sim.wrong_fs))))
   = false) /\
  (stages Mount_base (Sim.reattached PNone "/dev/loop0" Samples.stuck)
   = (Raise TypeError,
      snd (stages Mount_base
             (Sim.reattached PNone "/dev/loop0" Samples.stuck))) /\
   fst (do_mount Mount_base (Sim.reattached PNone "/dev/loop0" Samples.stuck))
   = Raise (ProcessExecutionError "umount: device is busy") /\
   mounted
     (self (snd (do_mount Mount_base
                   (Sim.reattached PNone "/dev/loop0" Samples.stuck))))
   = true).
Proof.
  split.
  - destruct (do_mount_exception_runs_teardown Mount_base
                (Sim.fresh PNone Sim.wrong_fs)
                (snd (stages Mount_base (Sim.fresh PNone Sim.wrong_fs)))
                TypeError base_detaches)
      as [Run Flags]; [vm_compute; reflexivity|].
    split; [vm_compute; reflexivity|]. split; [vm_compute; reflexivity|].
    split; [vm_compute; reflexivity|]. exact Flags.
  - destruct (do_mount_exception_runs_teardown Mount_base
                (Sim.reattached PNone "/dev/loop0" Samples.stuck)
                (snd (stages Mount_base
                        (Sim.reattached PNone "/dev/loop0" Samples.stuck)))
                TypeError base_detaches)
      as [Run _]; [vm_compute; reflexivity|].
    split; [vm_compute; reflexivity|].
    split; [rewrite Run|]; vm_compute; reflexivity.
Defined.

(** ** Mapping partitions *)

Section Mapping.
Context {H : Host}.
Variable cls : MountClass.

(** With an existing raw device, [map_dev] is its branch followed by
    [return self.mapped]. *)
Lemma map_dev_unfold s dev :
  device (self s) = Some dev ->
  os_path_exists (world s) dev = true ->
  map_dev cls s =
  match map_branches cls (self s) dev s with
  | (Ok _, s') => (Ok (mapped (self s')), s')
  | (Raise e, s') => (Raise e, s')
  end.
Proof.
  intros Hd He. unfold map_dev, bind, get_self, path_exists, assert, ret.
  rewrite Hd, He. reflexivity.
Qed.

End Mapping.

(** C10.  [map_dev] asserts that the raw device path exists, and, when a
    partition is asked for and its auto-mapped node is absent, that the
    device-mapper node does not exist yet.  When either assertion fails
    [map_dev] raises [AssertionError] (it does not return [False]) and
    has changed nothing and run no command. *)
Theorem map_dev_asserted_preconditions {H : Host} (cls : MountClass)
        (s : state) (dev : string) :
  device (self s) = Some dev ->
  (os_path_exists (world s) dev = false ->
   map_dev cls s = (Raise AssertionError, s)) /\
  (os_path_exists (world s) dev = true ->
   eq_minus_one (partition (self s)) = false ->
   truthy (partition (self s)) = true ->
   os_path_exists (world s) (automapped_path dev (partition (self s))) = false ->
   os_path_exists (world s) (map_path dev (partition (self s))) = true ->
   map_dev cls s = (Raise AssertionError, s)).
Proof.
  intros Hd. split.
  - intros He. unfold map_dev, bind, get_self, path_exists, assert, raise.
    rewrite Hd, He. reflexivity.
  - intros He Hm1 Ht Ha Hp. rewrite (map_dev_unfold cls s dev Hd He).
    unfold map_branches, bind, path_exists, assert, raise, ret.
    rewrite Hm1, Ht, Ha. cbn [negb]. rewrite Hp. reflexivity.
Qed.

(** Both assertions on the simulated host: a session around a device
    path that does not exist, and an attached device whose device-mapper
    node is already there. *)
Lemma map_dev_asserted_preconditions_witness :
  map_dev Sim.LoopMount (Sim.reattached (PInt 1) "/dev/loop0" Sim.no_device)
  = (Raise AssertionError,
     Sim.reattached (PInt 1) "/dev/loop0" Sim.no_device) /\
  map_dev Sim.LoopMount (Sim.attached (PInt 1) Sim.left_over)
  = (Raise AssertionError, Sim.attached (PInt 1) Sim.left_over).
Proof.
  split.
  - apply (proj1 (map_dev_asserted_preconditions Sim.LoopMount
                    (Sim.reattached (PInt 1) "/dev/loop0" Sim.no_device)
                    "/dev/loop0" eq_refl)).
    vm_compute; reflexivity.
  - apply (proj2 (map_dev_asserted_preconditions Sim.LoopMount
                    (Sim.attached (PInt 1) Sim.left_over)
                    "/dev/loop0" eq_refl));
      vm_compute; reflexivity.
Defined.

(** C6.  When a partition is asked for and the node
    [/dev/<base>p<partition>] of the raw device already exists,
    [map_dev] returns [True] with that node as the mapped device and
    [mapped] and [automapped] set; the world and the command log are
    untouched, so no mapping tool has run. *)
Theorem map_dev_automapped {H : Host} (cls : MountClass)
        (s : state) (dev : string) :
  device (self s) = Some dev ->
  os_path_exists (world s) dev = true ->
  eq_minus_one (partition (self s)) = false ->
  truthy (partition (self s)) = true ->
  os_path_exists (world s) (automapped_path dev (partition (self s))) = true ->
  map_dev cls s =
  (Ok true,
   mkState
     (with_automapped true
        (with_mapped true
           (with_mapped_device
              (Some (automapped_path dev (partition (self s)))) (self s))))
     (world s) (trace s)).
Proof.
  intros Hd He Hm1 Ht Ha. rewrite (map_dev_unfold cls s dev Hd He).
  unfold map_branches, bind, path_exists, update, ret.
  rewrite Hm1, Ht, Ha. cbn [negb]. cbv beta iota. rewrite Ha. reflexivity.
Qed.

(** Partition 1 of a loop device that the kernel has mapped by itself. *)
Lemma map_dev_automapped_witness :
  map_dev Sim.LoopMount (Sim.attached (PInt 1) Sim.kernel_mapped) =
  (Ok true,
   mkState
     (with_automapped true
        (with_mapped true
           (with_mapped_device
              (Some (automapped_path "/dev/loop0"
                       (partition (self (Sim.attached (PInt 1)
                                           Sim.kernel_mapped)))))
              (self (Sim.attached (PInt 1) Sim.kernel_mapped)))))
     (world (Sim.attached (PInt 1) Sim.kernel_mapped))
     (trace (Sim.attached (PInt 1) Sim.kernel_mapped))) /\
  automapped_path "/dev/loop0" (PInt 1) = "/dev/loop0p1" /\
  trace (snd (map_dev Sim.LoopMount (Sim.attached (PInt 1) Sim.kernel_mapped)))
  = [].
Proof.
  split; [|split; vm_compute; reflexivity].
  apply (map_dev_automapped Sim.LoopMount
           (Sim.attached (PInt 1) Sim.kernel_mapped) "/dev/loop0");
    vm_compute; reflexivity.
Defined.

(** C3, as stated, fails: on a session whose [mapped] flag is already
    set (here one re-created around [/dev/loop0]), [kpartx -a] reports
    nothing, the device-mapper node is absent afterwards, and [map_dev]
    still returns [True], because it returns [self.mapped]. *)
Lemma map_dev_stale_flag_counterexample :
  ~ (forall (H : Host) (cls : MountClass) (s : state) (dev : string),
        device (self s) = Some dev ->
        eq_minus_one (partition (self s)) = false ->
        truthy (partition (self s)) = true ->
        os_path_exists (world s) (automapped_path dev (partition (self s)))
        = false ->
        snd (fst (utils_trycmd (kpartx_a dev) true true (world s))) = "" ->
        os_path_exists (snd (utils_trycmd (kpartx_a dev) true true (world s)))
                       (map_path dev (partition (self s))) = false ->
        fst (map_dev cls s) = Ok false).
Proof.
  intros Claim.
  specialize (Claim Sim.host Mount_base
                    (Sim.reattached (PInt 1) "/dev/loop0" Sim.running)
                    "/dev/loop0" eq_refl eq_refl eq_refl eq_refl eq_refl
                    eq_refl).
  vm_compute in Claim. discriminate Claim.
Qed.

(** C3, amended.  On a session that is not yet marked mapped, whose raw
    device exists, with a partition asked for and neither its
    auto-mapped node nor its device-mapper node there, [map_dev] runs
    [kpartx -a] on the raw device and then looks only at the
    device-mapper node: if the node exists it returns [True] with the
    node as mapped device, whatever the tool reported; if not it returns
    [False] and sets [error] to the tool's error text, or to "partition
    N not found" when the tool reported none. *)
Theorem map_dev_judged_by_node {H : Host} (cls : MountClass)
        (s : state) (dev : string) :
  device (self s) = Some dev ->
  os_path_exists (world s) dev = true ->
  eq_minus_one (partition (self s)) = false ->
  truthy (partition (self s)) = true ->
  os_path_exists (world s) (automapped_path dev (partition (self s))) = false ->
  os_path_exists (world s) (map_path dev (partition (self s))) = false ->
  mapped (self s) = false ->
  map_dev cls s =
  (let '(out_err, w) := utils_trycmd (kpartx_a dev) true true (world s) in
   if os_path_exists w (map_path dev (partition (self s))) then
     (Ok true,
      mkState
        (with_mapped true
           (with_mapped_device (Some (map_path dev (partition (self s))))
                               (self s)))
        w (trace s ++ [kpartx_a dev]))
   else
     (Ok false,
      mkState
        (with_error
           ("Failed to map partitions: "
            ++ (if truthy_str (snd out_err) then snd out_err
                else "partition " ++ str (partition (self s)) ++ " not found"))
           (self s))
        w (trace s ++ [kpartx_a dev]))).
Proof.
  intros Hd He Hm1 Ht Ha Hp Hm. rewrite (map_dev_unfold cls s dev Hd He).
  unfold map_branches, bind, path_exists, assert, trycmd, update, ret, raise.
  rewrite Hm1, Ht, Ha. cbn [negb]. cbv beta iota. rewrite Hp. cbn [negb].
  cbv beta iota.
  destruct (utils_trycmd (kpartx_a dev) true true (world s)) as [[out err] w].
  cbn [self world trace snd fst].
  destruct (os_path_exists w (map_path dev (partition (self s)))); cbn [negb].
  - reflexivity.
  - cbn. rewrite Hm. unfold gettext.
    destruct (truthy_str err); reflexivity.
Qed.

(** The two halves on the simulated host: [kpartx -a] complains but the
    node of partition 1 appears and [map_dev] returns [True]; [kpartx -a]
    reports nothing, no node appears and [map_dev] returns [False]. *)
Lemma map_dev_judged_by_node_witness :
  fst (map_dev Sim.LoopMount (Sim.attached (PInt 1) Sim.noisy_kpartx))
  = Ok true /\
  (fst (map_dev Sim.LoopMount (Sim.attached (PInt 1) Sim.unpartitioned))
   = Ok false /\
   error (self (snd (map_dev Sim.LoopMount
                       (Sim.attached (PInt 1) Sim.unpartitioned))))
   = "Failed to map partitions: partition 1 not found").
Proof.
  split.
  - rewrite (map_dev_judged_by_node Sim.LoopMount
               (Sim.attached (PInt 1) Sim.noisy_kpartx) "/dev/loop0");
      vm_compute; reflexivity.
  - rewrite (map_dev_judged_by_node Sim.LoopMount
               (Sim.attached (PInt 1) Sim.unpartitioned) "/dev/loop0");
      [split|..]; vm_compute; reflexivity.
Defined.

(** ** Construction around an existing device *)

(** C5, as stated, fails: a device hint that is neither absolute nor
    existing still makes the constructor mark the session attached. *)
Lemma init_relative_hint_counterexample :
  ~ (forall (H : Host) (image mount_dir : string) (part : value)
            (dev : string) (w : World) (t : list argv) (s : state),
        __init__ image mount_dir part (Some dev) w t = (Ok tt, s) ->
        linked (self s) = true ->
        isabs dev = true /\ os_path_exists w dev = true).
Proof.
  intros Claim.
  destruct (Claim Sim.host "disk.img" "/mnt" PNone "loop0" Sim.no_device []
                  (Sim.reattached PNone "loop0" Sim.no_device)
                  eq_refl eq_refl) as [Abs _].
  vm_compute in Abs. discriminate Abs.
Qed.

(** C5, amended.  Any non-empty device hint makes the constructor mark
    the session linked, mapped and mounted.  The hint is taken apart
    only when it is an absolute, existing path under [/dev/mapper/]:
    the base name is cut at its last [p], the text before it, put under
    [/dev], becomes the device and the text after it the partition;
    [mapped_device] stays the hint.  In every other case device and
    partition stay as they were passed. *)
Theorem init_with_device_hint {H : Host} (image mount_dir : string)
        (part : value) (dev : string) (w : World) (t : list argv) :
  truthy_str dev = true ->
  (isabs dev && os_path_exists w dev && prefix "/dev/mapper/" dev = false ->
   __init__ image mount_dir part (Some dev) w t =
   (Ok tt,
    mkState (mkMount image part mount_dir "" true true true false
                     (Some dev) (Some dev)) w t)) /\
  (forall base p,
      isabs dev && os_path_exists w dev && prefix "/dev/mapper/" dev = true ->
      rsplit1 "p" (basename dev) = Some (base, p) ->
      __init__ image mount_dir part (Some dev) w t =
      (Ok tt,
       mkState (mkMount image (PStr p) mount_dir "" true true true false
                        (Some (join "/dev" base)) (Some dev)) w t)).
Proof.
  intros Ht. split.
  - intros Hc. unfold __init__, reset_dev, bind, get_self, update, path_exists, ret.
    cbn [self device truthy_opt world trace]. rewrite Ht. cbn [negb].
    cbv beta iota. cbn [self device with_linked with_mapped with_mounted].
    destruct (isabs dev); cbn in Hc |- *; [|reflexivity].
    destruct (os_path_exists w dev); cbn in Hc |- *; [|reflexivity].
    rewrite Hc. reflexivity.
  - intros base p Hc Hr.
    apply andb_prop in Hc. destruct Hc as [Hc Hp].
    apply andb_prop in Hc. destruct Hc as [Ha He].
    unfold __init__, reset_dev, bind, get_self, update, path_exists, ret.
    cbn [self device truthy_opt world trace]. rewrite Ht. cbn [negb].
    cbv beta iota. cbn [self device with_linked with_mapped with_mounted].
    rewrite Ha. cbn. rewrite He, Hp, Hr. reflexivity.
Qed.

(** The example of the specification: a session built around
    [/dev/mapper/loop0p1] has device [/dev/loop0] and partition ["1"]. *)
Lemma init_with_device_hint_witness :
  __init__ "disk.img" "/mnt" PNone (Some "/dev/mapper/loop0p1") Sim.left_over [] =
  (Ok tt,
   mkState (mkMount "disk.img" (PStr "1") "/mnt" "" true true true false
                    (Some (join "/dev" "loop0")) (Some "/dev/mapper/loop0p1"))
           Sim.left_over []) /\
  join "/dev" "loop0" = "/dev/loop0".
Proof.
  split; [|vm_compute; reflexivity].
  apply (proj2 (@init_with_device_hint Sim.host "disk.img" "/mnt" PNone
                  "/dev/mapper/loop0p1" Sim.left_over [] eq_refl)
               "loop0" "1");
    vm_compute; reflexivity.
Defined.

(** ** Unmapping *)

(** C7, as stated, fails: in a session around the whole device
    [/dev/loop0] (no partition selector), which is marked mapped and not
    auto-mapped, [unmap_dev], the step of [do_umount] that undoes the
    mapping, runs no command at all. *)
Lemma unmap_dev_whole_device_counterexample :
  ~ (forall (H : Host) (s : state),
        mapped (self s) = true ->
        automapped (self s) = false ->
        trace (snd (unmap_dev s))
        = (trace s ++ [kpartx_d (device (self s))])%list).
Proof.
  intros Claim.
  specialize (Claim Sim.host (Sim.reattached PNone "/dev/loop0" Sim.running)
                    eq_refl eq_refl).
  vm_compute in Claim. discriminate Claim.
Qed.

(** C7, amended.  In a session that is mapped and not auto-mapped,
    [unmap_dev] runs [kpartx -d] on the raw device exactly when a
    partition selector is set; when the tool returns, [mapped] and
    [automapped] are both false (when it raises, the exception leaves
    [unmap_dev] and the flags stay).  Without a partition selector no
    command is run and the two flags are cleared. *)
Theorem unmap_dev_runs_kpartx {H : Host} (s : state) :
  mapped (self s) = true ->
  automapped (self s) = false ->
  unmap_dev s =
  if truthy (partition (self s)) then
    let '(r, w) := utils_execute (kpartx_d (device (self s))) true (world s) in
    match r with
    | Ok _ =>
        (Ok tt,
         mkState (with_automapped false (with_mapped false (self s)))
                 w (trace s ++ [kpartx_d (device (self s))]))
    | Raise e =>
        (Raise e, mkState (self s) w (trace s ++ [kpartx_d (device (self s))]))
    end
  else
    (Ok tt,
     mkState (with_automapped false (with_mapped false (self s)))
             (world s) (trace s)).
Proof.
  intros Hm Ha. unfold unmap_dev, bind, get_self, when, execute, update, ret.
  rewrite Hm, Ha. cbn [negb andb].
  destruct (truthy (partition (self s))); cbn [andb].
  - destruct (utils_execute (kpartx_d (device (self s))) true (world s))
      as [[x|e] w]; reflexivity.
  - reflexivity.
Qed.

(** Partition 2 mapped with [kpartx -a] on the simulated host is
    unmapped with [kpartx -d /dev/loop0]. *)
Lemma unmap_dev_runs_kpartx_witness :
  trace (snd (unmap_dev (Sim.mapped_session (PInt 2) Sim.partitioned)))
  = (trace (Sim.mapped_session (PInt 2) Sim.partitioned)
     ++ [[Some "kpartx"; Some "-d"; Some "/dev/loop0"]])%list /\
  mapped (self (snd (unmap_dev (Sim.mapped_session (PInt 2) Sim.partitioned))))
  = false /\
  automapped
    (self (snd (unmap_dev (Sim.mapped_session (PInt 2) Sim.partitioned))))
  = false.
Proof.
  rewrite (unmap_dev_runs_kpartx (Sim.mapped_session (PInt 2) Sim.partitioned));
    [repeat split|..]; vm_compute; reflexivity.
Defined.


(** ** Stage flags and the error string, method by method *)

Section Frames.
Context {H : Host}.
Variable cls : MountClass.

(** What the four-way branch of [map_dev] can do to the session:
    either it maps (sets [mapped], keeps [error]), or it raises and
    changes nothing, or it records a failure in [error] and keeps
    [mapped]. *)
Lemma map_branches_cases s dev r s' :
  map_branches cls (self s) dev s = (r, s') ->
  linked (self s') = linked (self s) /\
  mounted (self s') = mounted (self s) /\
  ((r = Ok tt /\ mapped (self s') = true /\
    error (self s') = error (self s)) \/
   ((exists e, r = Raise e) /\ s' = s) \/
   (r = Ok tt /\ mapped (self s') = mapped (self s) /\
    map_failure cls (self s) (error (self s')))).
Proof.
  unfold map_branches, bind, path_exists, assert, trycmd, update, ret, raise.
  intros E.
  destruct (eq_minus_one (partition (self s))).
  { inv_pair. cbn. repeat split. right. right. repeat split.
    left. reflexivity. }
  destruct (truthy (partition (self s))); cbn [negb] in E; cbv beta iota in E.
  - destruct (os_path_exists (world s)
                (automapped_path dev (partition (self s)))) eqn:Ea;
      cbn [negb] in E; cbv beta iota in E.
    + rewrite Ea in E. inv_pair. cbn. repeat split. left. auto.
    + destruct (os_path_exists (world s)
                  (map_path dev (partition (self s)))) eqn:Ep;
        cbn [negb] in E; cbv beta iota in E.
      * inv_pair. repeat split. right. left. split; [eauto|reflexivity].
      * destruct (utils_trycmd (kpartx_a dev) true true (world s))
          as [[out err] w].
        cbn [self world trace snd] in E.
        destruct (os_path_exists w (map_path dev (partition (self s))));
          cbn [negb] in E; inv_pair; cbn; repeat split.
        -- left. auto.
        -- right. right. repeat split. right. exists err.
           destruct (truthy_str err); reflexivity.
  - inv_pair. cbn. repeat split. left. auto.
Qed.

(** The same for [map_dev] as a whole; the value it returns is the
    [mapped] flag it leaves. *)
Lemma map_dev_cases s r s' :
  map_dev cls s = (r, s') ->
  linked (self s') = linked (self s) /\
  mounted (self s') = mounted (self s) /\
  ((r = Ok true /\ mapped (self s') = true /\
    error (self s') = error (self s)) \/
   ((exists e, r = Raise e) /\ s' = s) \/
   (r = Ok (mapped (self s)) /\ mapped (self s') = mapped (self s) /\
    map_failure cls (self s) (error (self s')))).
Proof.
  intros E. unfold map_dev, bind, get_self, path_exists, assert, ret, raise
    in E.
  destruct (device (self s)) as [dev|] eqn:Hd.
  - destruct (os_path_exists (world s) dev) eqn:He.
    + cbv beta iota in E. fold (bind (A:=unit) (B:=bool)) in E.
      destruct (map_branches cls (self s) dev s) as [[u|e] s1] eqn:Eb.
      * inv_pair.
        destruct (map_branches_cases s dev _ _ Eb)
          as (Hl & Hn & [(_ & Hm & Herr) | [((e & He') & _) | (_ & Hm & Hf)]]).
        -- repeat split; auto. left. rewrite Hm. auto.
        -- discriminate He'.
        -- repeat split; auto. right. right. rewrite Hm. auto.
      * inv_pair.
        destruct (map_branches_cases s dev _ _ Eb)
          as (Hl & Hn & [(Hr & _) | [(_ & Hs) | (Hr & _)]]);
          try discriminate Hr.
        subst. repeat split. right. left. split; [eauto|reflexivity].
    + inv_pair. repeat split. right. left. split; [eauto|reflexivity].
  - inv_pair. repeat split. right. left. split; [eauto|reflexivity].
Qed.

(** [mnt_dev] never raises: it returns [True] with [mounted] set and
    [error] kept, or [False] with the error text of [mount] recorded. *)
Lemma mnt_dev_cases s r s' :
  mnt_dev s = (r, s') ->
  linked (self s') = linked (self s) /\
  mapped (self s') = mapped (self s) /\
  ((r = Ok true /\ mounted (self s') = true /\
    error (self s') = error (self s)) \/
   (r = Ok false /\ mounted (self s') = mounted (self s) /\
    exists err,
      truthy_str err = true /\
      error (self s') = "Failed to mount filesystem: " ++ err)).
Proof.
  unfold mnt_dev, bind, get_self, trycmd, update, ret. intros E.
  destruct (utils_trycmd (mount_cmd (self s)) true false (world s))
    as [[out err] w].
  cbn [snd] in E. destruct (truthy_str err) eqn:Ht; inv_pair; cbn;
    repeat split.
  - right. repeat split. exists err. auto.
  - left. auto.
Qed.

End Frames.

Section ErrorKept.
Context {H : Host}.

Lemma map_failure_nonempty (cls : MountClass) m msg :
  map_failure cls m msg -> msg <> "".
Proof.
  intros [E | [err E]]; rewrite E; cbn; discriminate.
Qed.

Lemma unmnt_dev_error s : error (self (snd (unmnt_dev s))) = error (self s).
Proof.
  unfold unmnt_dev, bind, get_self, execute, update, ret.
  destruct (mounted (self s)); cbn [negb]; [|reflexivity].
  destruct (utils_execute (umount_cmd (self s)) true (world s))
    as [[x|e] w]; reflexivity.
Qed.

Lemma unmap_dev_error s : error (self (snd (unmap_dev s))) = error (self s).
Proof.
  unfold unmap_dev, bind, get_self, when, execute, update, ret.
  destruct (mapped (self s)); cbn [negb]; [|reflexivity].
  destruct (truthy (partition (self s)) && negb (automapped (self s)));
    [|reflexivity].
  destruct (utils_execute (kpartx_d (device (self s))) true (world s))
    as [[x|e] w]; reflexivity.
Qed.

(** With the base class, [do_umount] leaves [error] as it is. *)
Lemma do_umount_error s :
  error (self (snd (do_umount Mount_base s))) = error (self s).
Proof.
  rewrite do_umount_steps.
  destruct (if mounted (self s) then unmnt_dev s else (Ok tt, s))
    as [[u|e] s1] eqn:E1.
  - assert (F1 : error (self s1) = error (self s)).
    { destruct (mounted (self s)).
      - rewrite <- (unmnt_dev_error s), E1. reflexivity.
      - inv_pair. reflexivity. }
    destruct (if mapped (self s1) then unmap_dev s1 else (Ok tt, s1))
      as [[v|e] s2] eqn:E2.
    + assert (F2 : error (self s2) = error (self s1)).
      { destruct (mapped (self s1)).
        - rewrite <- (unmap_dev_error s1), E2. reflexivity.
        - inv_pair. reflexivity. }
      destruct (linked (self s2)); cbn; congruence.
    + cbn. destruct (mapped (self s1)).
      * rewrite <- F1, <- (unmap_dev_error s1), E2. reflexivity.
      * discriminate E2.
  - cbn. destruct (mounted (self s)).
    + rewrite <- (unmnt_dev_error s), E1. reflexivity.
    + discriminate E1.
Qed.

(** No operation of the base class empties a non-empty [error]. *)
Lemma call_keeps_error o s :
  error (self (call Mount_base o s)) = "" -> error (self s) = "".
Proof.
  assert (Map : forall s,
             error (self (snd (map_dev Mount_base s))) = "" ->
             error (self s) = "").
  { intros s0 E. destruct (map_dev Mount_base s0) as [r s'] eqn:Em.
    destruct (map_dev_cases Mount_base s0 r s' Em)
      as (_ & _ & [(_ & _ & Herr) | [(_ & Hs) | (_ & _ & Hf)]]);
      cbn in E.
    - congruence.
    - subst. assumption.
    - apply map_failure_nonempty in Hf. contradiction. }
  assert (Mnt : forall s,
             error (self (snd (mnt_dev s))) = "" -> error (self s) = "").
  { intros s0 E. destruct (mnt_dev s0) as [r s'] eqn:Em.
    destruct (mnt_dev_cases s0 r s' Em)
      as (_ & _ & [(_ & _ & Herr) | (_ & _ & err & _ & Herr)]);
      cbn in E.
    - congruence.
    - rewrite Herr in E. discriminate E. }
  destruct o; cbn [call]; intros E.
  - exact E.
  - exact E.
  - apply Map. exact E.
  - rewrite unmap_dev_error in E. exact E.
  - apply Mnt. exact E.
  - rewrite unmnt_dev_error in E. exact E.
  - rewrite do_mount_unfold in E.
    assert (St : error (self (snd (stages Mount_base s))) = "" ->
                 error (self s) = "").
    { unfold stages, bind, ret. cbn [get_dev Mount_base].
      unfold Base.get_dev, bind, update, ret. cbv beta iota.
      match goal with
      | |- context [map_dev Mount_base ?x] => set (sa := x)
      end.
      intros E'. change (error (self sa) = ""). apply Map.
      destruct (map_dev Mount_base sa) as [[[|]|e] sb]; cbn [snd] in *;
        auto. }
    apply St.
    destruct (stages Mount_base s) as [[[|]|e] s1]; cbn [snd] in *.
    + exact E.
    + rewrite <- (do_umount_error s1).
      destruct (do_umount Mount_base s1) as [[u|e] s2]; exact E.
    + rewrite <- (do_umount_error s1).
      destruct (do_umount Mount_base s1) as [[u|e'] s2]; exact E.
  - rewrite do_umount_error in E. exact E.
Qed.

End ErrorKept.

(** C8, as stated, fails: [error] is not cleared when a stage starts.
    After a [mnt_dev] that failed on a wrong file system, a [map_dev] on
    the same, unmapped session succeeds and [error] still holds the old
    description. *)
Lemma error_not_cleared_counterexample :
  ~ (forall (H : Host) (cls : MountClass) (s s' : state),
        mapped (self s) = false ->
        map_dev cls s = (Ok true, s') ->
        error (self s') = "").
Proof.
  intros Claim.
  assert (Kept : error (self (snd (map_dev Mount_base Sim.failed_session)))
                 <> "")
    by (vm_compute; discriminate).
  apply Kept.
  apply (Claim Sim.host Mount_base Sim.failed_session);
    vm_compute; reflexivity.
Qed.

(** C8, amended.  [error] is empty after construction.  [map_dev] and
    [mnt_dev] set it to a description when they fail ([map_dev] returns
    [False] only with one of its two descriptions in [error], [mnt_dev]
    with the error text of [mount]) and leave it as it is when they
    succeed; [unmap_dev], [unmnt_dev] and the [do_umount] of the base
    class leave it as it is.  No stage
    clears it, at its start or at its end: through any sequence of
    operations of the base class a non-empty [error] stays non-empty. *)
Theorem error_set_on_failure_never_cleared {H : Host} (cls : MountClass) :
  (forall image mount_dir part dev w t,
      error (self (snd (__init__ image mount_dir part dev w t))) = "") /\
  (forall s r s',
      map_dev cls s = (r, s') ->
      (r = Ok false -> map_failure cls (self s) (error (self s'))) /\
      (r = Ok true -> mapped (self s) = false ->
       error (self s') = error (self s)) /\
      (error (self s') = error (self s) \/
       map_failure cls (self s) (error (self s')))) /\
  (forall s r s',
      mnt_dev s = (r, s') ->
      (r = Ok true /\ error (self s') = error (self s)) \/
      (r = Ok false /\
       exists err,
         truthy_str err = true /\
         error (self s') = "Failed to mount filesystem: " ++ err)) /\
  (forall s,
      error (self (snd (unmap_dev s))) = error (self s) /\
      error (self (snd (unmnt_dev s))) = error (self s) /\
      error (self (snd (do_umount Mount_base s))) = error (self s)) /\
  (forall ops s,
      error (self (run Mount_base ops s)) = "" -> error (self s) = "").
Proof.
  split; [|split; [|split; [|split]]].
  - intros image0 mount_dir0 part dev w t.
    unfold __init__, reset_dev, bind, get_self, update, path_exists, ret, raise.
    cbn [self device world trace].
    destruct (truthy_opt dev); cbn [negb]; [|reflexivity].
    cbv beta iota. cbn [self device with_linked with_mapped with_mounted].
    destruct dev as [d|]; [|reflexivity].
    destruct (isabs d); [|reflexivity].
    cbn [world]. destruct (os_path_exists w d); [|reflexivity].
    destruct (prefix "/dev/mapper/" d); [|reflexivity].
    destruct (rsplit1 "p" (basename d)) as [[b p]|]; reflexivity.
  - intros s r s' E.
    destruct (map_dev_cases cls s r s' E)
      as (_ & _ & [(Hr & Hm & Herr) | [((e & Hr) & Hs) | (Hr & Hm & Hf)]]).
    + repeat split; auto. subst. discriminate.
    + subst. repeat split; auto; discriminate.
    + repeat split; auto.
      intros Ht Hf'. rewrite Hf' in Hr. rewrite Hr in Ht. discriminate Ht.
  - intros s r s' E.
    destruct (mnt_dev_cases s r s' E)
      as (_ & _ & [(Hr & _ & Herr) | (Hr & _ & err & Ht & Herr)]).
    + left. auto.
    + right. split; [assumption|]. exists err. auto.
  - intros s. split; [apply unmap_dev_error|].
    split; [apply unmnt_dev_error | apply do_umount_error].
  - induction ops as [|o ops IH]; intros s E; cbn [run] in E.
    + exact E.
    + apply (call_keeps_error o). apply IH. exact E.
Qed.

(** ** The order of the stage flags *)

Section StageOrder.
Context {H : Host}.
Variable cls : MountClass.
Hypothesis Hk : keeps_stage_flags cls.

Lemma get_dev_prefix s :
  prefix_ok (self s) = true -> prefix_ok (self (snd (get_dev cls s))) = true.
Proof.
  destruct (get_dev cls s) as [r s'] eqn:E. cbn [snd].
  destruct (proj1 Hk s r s' E) as (Hm & Hn & Hl & _).
  intros P. unfold prefix_ok in *. revert Hl.
  rewrite <- Hm, <- Hn in P. revert P.
  destruct (mounted (self s')), (mapped (self s')), (linked (self s)),
    (linked (self s')); cbn; intros P Hl; auto.
Qed.

Lemma unget_dev_prefix s :
  mapped (self s) = false ->
  prefix_ok (self s) = true ->
  prefix_ok (self (snd (unget_dev cls s))) = true.
Proof.
  destruct (unget_dev cls s) as [r s'] eqn:E. cbn [snd].
  destruct (proj2 Hk s r s' E) as (Hm & Hn).
  intros Hf P. unfold prefix_ok in *. rewrite Hm, Hn, Hf in *.
  destruct (mounted (self s)); cbn in *; [discriminate P | reflexivity].
Qed.

Lemma map_dev_prefix s :
  linked (self s) = true ->
  prefix_ok (self s) = true ->
  prefix_ok (self (snd (map_dev cls s))) = true.
Proof.
  destruct (map_dev cls s) as [r s'] eqn:E. cbn [snd].
  destruct (map_dev_cases cls s r s' E)
    as (Hl & Hn & [(_ & Hm & _) | [(_ & Hs) | (_ & Hm & _)]]);
    intros L P.
  - unfold prefix_ok. rewrite Hm, Hl, L.
    destruct (mounted (self s')); reflexivity.
  - subst. assumption.
  - unfold prefix_ok in *. rewrite Hm, Hl, Hn. assumption.
Qed.

Lemma mnt_dev_prefix s :
  mapped (self s) = true ->
  prefix_ok (self s) = true ->
  prefix_ok (self (snd (mnt_dev s))) = true.
Proof.
  destruct (mnt_dev s) as [r s'] eqn:E. cbn [snd].
  destruct (mnt_dev_cases s r s' E)
    as (Hl & Hm & [(_ & Hn & _) | (_ & Hn & _)]);
    intros M P; unfold prefix_ok in *; rewrite Hl, Hm, Hn.
  - rewrite M in *.
    destruct (linked (self s)), (mounted (self s)); cbn in *;
      auto; discriminate P.
  - exact P.
Qed.

Lemma unmnt_dev_prefix s :
  prefix_ok (self s) = true -> prefix_ok (self (snd (unmnt_dev s))) = true.
Proof.
  destruct (unmnt_dev s) as [r s'] eqn:E. cbn [snd].
  destruct (unmnt_dev_flags s r s' E) as (Hl & Hm & Hn).
  intros P. unfold prefix_ok in *. rewrite Hl, Hm.
  destruct r; rewrite Hn; [|assumption].
  destruct (mounted (self s)); cbn in *; [|assumption].
  destruct (mapped (self s)); cbn in *; [assumption|discriminate P].
Qed.

Lemma unmap_dev_prefix s :
  mounted (self s) = false ->
  prefix_ok (self s) = true ->
  prefix_ok (self (snd (unmap_dev s))) = true.
Proof.
  destruct (unmap_dev s) as [r s'] eqn:E. cbn [snd].
  destruct (unmap_dev_flags s r s' E) as (Hl & Hn & Hm).
  intros N P. unfold prefix_ok in *. rewrite Hl, Hn, N.
  destruct r; rewrite Hm; cbn; [reflexivity|].
  rewrite N in P. assumption.
Qed.

(** [do_umount] keeps the order however it ends. *)
Lemma do_umount_prefix s :
  prefix_ok (self s) = true ->
  prefix_ok (self (snd (do_umount cls s))) = true.
Proof.
  intros P. rewrite do_umount_steps.
  destruct (if mounted (self s) then unmnt_dev s else (Ok tt, s))
    as [[u|e] s1] eqn:E1.
  - assert (F1 : prefix_ok (self s1) = true /\ mounted (self s1) = false).
    { destruct (mounted (self s)) eqn:N.
      - split.
        + pose proof (unmnt_dev_prefix s P) as Q. rewrite E1 in Q. exact Q.
        + apply unmnt_dev_flags in E1. tauto.
      - inv_pair. auto. }
    destruct F1 as (P1 & N1).
    destruct (if mapped (self s1) then unmap_dev s1 else (Ok tt, s1))
      as [[v|e] s2] eqn:E2.
    + assert (F2 : prefix_ok (self s2) = true /\ mapped (self s2) = false).
      { destruct (mapped (self s1)) eqn:M.
        - split.
          + pose proof (unmap_dev_prefix s1 N1 P1) as Q. rewrite E2 in Q.
            exact Q.
          + apply unmap_dev_flags in E2. tauto.
        - inv_pair. auto. }
      destruct F2 as (P2 & M2).
      destruct (linked (self s2)).
      * apply unget_dev_prefix; assumption.
      * exact P2.
    + cbn [snd]. destruct (mapped (self s1)) eqn:M.
      * pose proof (unmap_dev_prefix s1 N1 P1) as Q. rewrite E2 in Q.
        exact Q.
      * discriminate E2.
  - cbn [snd]. destruct (mounted (self s)) eqn:N.
    + pose proof (unmnt_dev_prefix s P) as Q. rewrite E1 in Q. exact Q.
    + discriminate E1.
Qed.

(** The three stages run by [do_mount] keep the order: each is entered
    only when the one before it reported success. *)
Lemma stages_prefix s :
  prefix_ok (self s) = true -> prefix_ok (self (snd (stages cls s))) = true.
Proof.
  intros P. unfold stages, bind, ret.
  destruct (get_dev cls s) as [[[|]|e] sa] eqn:Eg;
    pose proof (get_dev_prefix s P) as Pa; rewrite Eg in Pa; cbn [snd] in Pa;
    try exact Pa.
  destruct (proj1 Hk s _ sa Eg) as (_ & _ & _ & La).
  specialize (La eq_refl).
  destruct (map_dev cls sa) as [[[|]|e] sb] eqn:Em;
    pose proof (map_dev_prefix sa La Pa) as Pb; rewrite Em in Pb;
    cbn [snd] in Pb; try exact Pb.
  apply mnt_dev_prefix; [|exact Pb].
  destruct (map_dev_cases cls sa _ sb Em)
    as (_ & _ & [(_ & Hm & _) | [((e & He) & _) | (Hr & Hm & _)]]).
  - exact Hm.
  - discriminate He.
  - rewrite Hm. congruence.
Qed.

Lemma do_mount_prefix s :
  prefix_ok (self s) = true -> prefix_ok (self (snd (do_mount cls s))) = true.
Proof.
  intros P. rewrite do_mount_unfold.
  pose proof (stages_prefix s P) as Q.
  destruct (stages cls s) as [[[|]|e] s1]; cbn [snd] in Q.
  - exact Q.
  - pose proof (do_umount_prefix s1 Q) as R.
    destruct (do_umount cls s1) as [[u|e] s2]; exact R.
  - pose proof (do_umount_prefix s1 Q) as R.
    destruct (do_umount cls s1) as [[u|e'] s2]; exact R.
Qed.

(** An operation called in order keeps the flags in order. *)
Lemma call_prefix o s :
  in_order (self s) o = true ->
  prefix_ok (self s) = true ->
  prefix_ok (self (call cls o s)) = true.
Proof.
  destruct o; cbn [call in_order]; intros G P.
  - apply get_dev_prefix; assumption.
  - apply unget_dev_prefix; [|assumption].
    destruct (mapped (self s)); [discriminate G | reflexivity].
  - apply map_dev_prefix; assumption.
  - apply unmap_dev_prefix; [|assumption].
    destruct (mounted (self s)); [discriminate G | reflexivity].
  - apply mnt_dev_prefix; assumption.
  - apply unmnt_dev_prefix; assumption.
  - apply do_mount_prefix; assumption.
  - apply do_umount_prefix; assumption.
Qed.

Lemma run_prefix ops : forall s,
  all_in_order cls ops s = true ->
  prefix_ok (self s) = true ->
  prefix_ok (self (run cls ops s)) = true.
Proof.
  induction ops as [|o ops IH]; intros s G P; cbn [run all_in_order] in *.
  - exact P.
  - apply andb_prop in G. destruct G as [Go Gs].
    apply IH; [exact Gs|]. apply call_prefix; assumption.
Qed.

End StageOrder.

(** The constructor leaves the three flags all false or all true. *)
Lemma init_prefix {H : Host} image mount_dir part dev w t :
  prefix_ok (self (snd (__init__ image mount_dir part dev w t))) = true.
Proof.
  unfold __init__, reset_dev, bind, get_self, update, path_exists, ret, raise.
  cbn [self device world trace].
  destruct (truthy_opt dev); cbn [negb]; [|reflexivity].
  cbv beta iota. cbn [self device with_linked with_mapped with_mounted].
  destruct dev as [d|]; [|reflexivity].
  destruct (isabs d); [|reflexivity].
  cbn [world]. destruct (os_path_exists w d); [|reflexivity].
  destruct (prefix "/dev/mapper/" d); [|reflexivity].
  destruct (rsplit1 "p" (basename d)) as [[b p]|]; reflexivity.
Qed.

(** C4, as stated, fails: the operations can be called in any order,
    and they do not check it.  A session built around an existing
    device has all three flags set; [unget_dev] then clears [linked]
    and leaves [mapped] and [mounted] set. *)
Lemma stage_order_counterexample :
  ~ (forall (H : Host) (cls : MountClass) (image mount_dir : string)
            (part : value) (dev : option string) (w : World) (t : list argv)
            (ops : list op),
        prefix_ok
          (self (run cls ops (snd (__init__ image mount_dir part dev w t))))
        = true).
Proof.
  intros Claim.
  assert (Broken :
            prefix_ok
              (self (run Mount_base [UngetDev]
                         (snd (__init__ "disk.img" "/mnt" PNone (Some "/dev/loop0")
                                    Sim.running []))))
            <> true)
    by (vm_compute; discriminate).
  apply Broken. apply Claim.
Qed.

(** C4, amended.  After construction, and after every sequence of
    operations in which each one is called in stage order ([map_dev]
    only on a linked session, [mnt_dev] only on a mapped one,
    [unmap_dev] only when not mounted, [unget_dev] only when not
    mapped; [get_dev], [unmnt_dev], [do_mount] and [do_umount] at any
    time), [mounted] is set only if [mapped] is and [mapped] only if
    [linked] is, whether the calls returned or raised. *)
Theorem stage_flags_ordered {H : Host} (cls : MountClass)
        (image mount_dir : string) (part : value) (dev : option string)
        (w : World) (t : list argv) (ops : list op) :
  keeps_stage_flags cls ->
  all_in_order cls ops (snd (__init__ image mount_dir part dev w t)) = true ->
  prefix_ok (self (run cls ops (snd (__init__ image mount_dir part dev w t))))
  = true.
Proof.
  intros Hk G. apply run_prefix; [exact Hk | exact G | apply init_prefix].
Qed.

(** Every operation once, in order, on the simulated host. *)
Lemma stage_flags_ordered_witness :
  all_in_order Sim.LoopMount
    [GetDev; MapDev; MntDev; UnmntDev; UnmapDev; UngetDev; DoMount; DoUmount]
    (snd (__init__ "disk.img" "/mnt" (PInt 2) None Sim.partitioned [])) = true /\
  prefix_ok
    (self (run Sim.LoopMount
             [GetDev; MapDev; MntDev; UnmntDev; UnmapDev; UngetDev; DoMount;
              DoUmount]
             (snd (__init__ "disk.img" "/mnt" (PInt 2) None Sim.partitioned []))))
  = true.
Proof.
  split; [vm_compute; reflexivity|].
  apply (stage_flags_ordered Sim.LoopMount "disk.img" "/mnt" (PInt 2) None
           Sim.partitioned []
           [GetDev; MapDev; MntDev; UnmntDev; UnmapDev; UngetDev; DoMount;
            DoUmount]).
  - apply backend_keeps_stage_flags.
  - vm_compute; reflexivity.
Defined.

(** The error string through a failed and a repeated attempt on the
    simulated host: set by the failing [mnt_dev], kept by the [map_dev]
    that succeeds afterwards. *)
Lemma error_set_on_failure_never_cleared_witness :
  error (self Sim.failed_session)
  = "Failed to mount filesystem: wrong fs type" /\
  (error (self (run Mount_base [DoUmount; MapDev; MntDev] Sim.failed_session))
   = "" ->
   error (self Sim.failed_session) = "").
Proof.
  split; [vm_compute; reflexivity|].
  apply (proj2 (proj2 (proj2 (proj2
           (error_set_on_failure_never_cleared Sim.LoopMount))))
           [DoUmount; MapDev; MntDev] Sim.failed_session).
Defined.

(** ** Further properties of the class *)

Section MoreFacts.
Context {H : Host}.
Variable cls : MountClass.

(** A [mnt_dev] that returns [True] has run [mount] on the mapped device
    and only set [mounted]. *)
Lemma mnt_dev_true s s' :
  mnt_dev s = (Ok true, s') ->
  s' = mkState (with_mounted true (self s))
               (snd (utils_trycmd (mount_cmd (self s)) true false (world s)))
               (trace s ++ [mount_cmd (self s)]).
Proof.
  unfold mnt_dev, bind, get_self, trycmd, update, ret.
  destruct (utils_trycmd (mount_cmd (self s)) true false (world s))
    as [[out err] w].
  cbn [snd]. destruct (truthy_str err); intros E; inv_pair. reflexivity.
Qed.

(** A value that is not truthy is not [-1]. *)
Lemma falsy_not_minus_one v : truthy v = false -> eq_minus_one v = false.
Proof.
  destruct v as [|z|x]; cbn; intros E; try reflexivity.
  apply negb_false_iff in E. apply Z.eqb_eq in E. subst. reflexivity.
Qed.

(** [unmnt_dev] on a mounted session, by the outcome of [umount]. *)
Lemma unmnt_dev_mounted s :
  mounted (self s) = true ->
  unmnt_dev s =
  let '(r, w) := utils_execute (umount_cmd (self s)) true (world s) in
  match r with
  | Ok _ =>
      (Ok tt,
       mkState (with_mounted false (self s)) w (trace s ++ [umount_cmd (self s)]))
  | Raise e =>
      (Raise e, mkState (self s) w (trace s ++ [umount_cmd (self s)]))
  end.
Proof.
  intros Hn. unfold unmnt_dev, bind, get_self, execute, update, ret.
  rewrite Hn. cbn [negb].
  destruct (utils_execute (umount_cmd (self s)) true (world s)) as [[x|e] w];
    reflexivity.
Qed.

(** [unmap_dev] on a session mapped through [kpartx], by the outcome of
    [kpartx -d]. *)
Lemma unmap_dev_kpartx s :
  mapped (self s) = true ->
  truthy (partition (self s)) = true ->
  automapped (self s) = false ->
  unmap_dev s =
  let '(r, w) := utils_execute (kpartx_d (device (self s))) true (world s) in
  match r with
  | Ok _ =>
      (Ok tt,
       mkState (with_automapped false (with_mapped false (self s)))
               w (trace s ++ [kpartx_d (device (self s))]))
  | Raise e =>
      (Raise e, mkState (self s) w (trace s ++ [kpartx_d (device (self s))]))
  end.
Proof.
  intros Hm Ht Ha. unfold unmap_dev, bind, get_self, when, execute, update, ret.
  rewrite Hm, Ht, Ha. cbn [negb andb].
  destruct (utils_execute (kpartx_d (device (self s))) true (world s))
    as [[x|e] w]; reflexivity.
Qed.

(** [unmap_dev] on a mapped session that needs no [kpartx -d]: no
    partition selector, or an auto-mapped partition. *)
Lemma unmap_dev_quiet s :
  mapped (self s) = true ->
  truthy (partition (self s)) && negb (automapped (self s)) = false ->
  unmap_dev s =
  (Ok tt,
   mkState (with_automapped false (with_mapped false (self s)))
           (world s) (trace s)).
Proof.
  intros Hm Hq. unfold unmap_dev, bind, get_self, when, execute, update, ret.
  rewrite Hm, Hq. reflexivity.
Qed.

End MoreFacts.

(** X1.  When [do_mount] returns [True] no teardown has run: the session
    is the one the three stages left, [linked], [mapped] and [mounted]
    are all set, and the last command handed to the command runner is
    [mount] of the session's mapped device on its mount directory. *)
Theorem do_mount_success {H : Host} (cls : MountClass) (s s' : state) :
  keeps_stage_flags cls ->
  do_mount cls s = (Ok true, s') ->
  stages cls s = (Ok true, s') /\
  linked (self s') = true /\
  mapped (self s') = true /\
  mounted (self s') = true /\
  exists t,
    trace s' =
    (t ++ [[Some "mount"; mapped_device (self s'); Some (mount_dir (self s'))]])
      %list.
Proof.
  intros Hk E. rewrite do_mount_unfold in E.
  destruct (stages cls s) as [[[|]|e] s1] eqn:Es.
  - inv_pair. split; [reflexivity|].
    unfold stages, bind, ret in Es.
    destruct (get_dev cls s) as [[[|]|e] sa] eqn:Eg; try discriminate Es.
    destruct (map_dev cls sa) as [[[|]|e] sb] eqn:Em; try discriminate Es.
    destruct (proj1 Hk s _ sa Eg) as (_ & _ & _ & La). specialize (La eq_refl).
    destruct (map_dev_cases cls sa _ sb Em)
      as (Hl & _ & [(_ & Hm & _) | [((e & He) & _) | (Hr & Hm & _)]]);
      try discriminate He.
    + rewrite (mnt_dev_true sb s' Es). cbn.
      repeat split; try congruence. eexists. reflexivity.
    + assert (Hm' : mapped (self sb) = true) by congruence.
      rewrite (mnt_dev_true sb s' Es). cbn.
      repeat split; try congruence. eexists. reflexivity.
  - destruct (do_umount cls s1) as [[u|e] s2]; discriminate E.
  - destruct (do_umount cls s1) as [[u|e'] s2]; discriminate E.
Qed.

(** Partition 2 of a partitioned image mounted through the loop backend
    on the simulated host. *)
Lemma do_mount_success_witness :
  do_mount Sim.LoopMount (Sim.fresh (PInt 2) Sim.partitioned)
  = (Ok true, Sim.mounted_session) /\
  mapped_device (self Sim.mounted_session) = Some "/dev/mapper/loop0p2" /\
  (stages Sim.LoopMount (Sim.fresh (PInt 2) Sim.partitioned)
   = (Ok true, Sim.mounted_session) /\
   linked (self Sim.mounted_session) = true /\
   mapped (self Sim.mounted_session) = true /\
   mounted (self Sim.mounted_session) = true /\
   exists t,
     trace Sim.mounted_session =
     (t ++ [[Some "mount"; mapped_device (self Sim.mounted_session);
             Some (mount_dir (self Sim.mounted_session))]])%list).
Proof.
  split; [vm_compute; reflexivity|]. split; [vm_compute; reflexivity|].
  apply (do_mount_success Sim.LoopMount (Sim.fresh (PInt 2) Sim.partitioned)
           Sim.mounted_session).
  - apply backend_keeps_stage_flags.
  - vm_compute; reflexivity.
Defined.

(** X2.  On a session that is mounted and mapped through [kpartx] (a
    partition selector, not auto-mapped), when both tools return,
    [do_umount] runs [umount] on the mapped device and then [kpartx -d]
    on the raw device, in that order and nothing else, clears [mounted],
    [mapped] and [automapped], and only then hands over to [unget_dev]
    (if the session is linked). *)
Theorem do_umount_reverse_order {H : Host} (cls : MountClass) (s : state)
        (x y : string * string) (w1 w2 : World) :
  mounted (self s) = true ->
  mapped (self s) = true ->
  truthy (partition (self s)) = true ->
  automapped (self s) = false ->
  utils_execute (umount_cmd (self s)) true (world s) = (Ok x, w1) ->
  utils_execute (kpartx_d (device (self s))) true w1 = (Ok y, w2) ->
  do_umount cls s =
  if linked (self s) then
    unget_dev cls
      (mkState
         (with_automapped false (with_mapped false (with_mounted false (self s))))
         w2 (trace s ++ [umount_cmd (self s); kpartx_d (device (self s))]))
  else
    (Ok tt,
     mkState
       (with_automapped false (with_mapped false (with_mounted false (self s))))
       w2 (trace s ++ [umount_cmd (self s); kpartx_d (device (self s))])).
Proof.
  intros Hn Hm Ht Ha E1 E2. rewrite do_umount_steps. rewrite Hn.
  rewrite (unmnt_dev_mounted s Hn), E1.
  cbn [self with_mounted mapped]. rewrite Hm.
  rewrite unmap_dev_kpartx by assumption.
  cbn [self world trace with_mounted device]. rewrite E2.
  cbn [self with_automapped with_mapped linked].
  rewrite <- app_assoc. reflexivity.
Qed.

(** The mounted partition of the simulated host, torn down. *)
Lemma do_umount_reverse_order_witness :
  trace (snd (do_umount Sim.LoopMount Sim.mounted_session)) =
  (trace Sim.mounted_session
   ++ [[Some "umount"; Some "/dev/mapper/loop0p2"];
       [Some "kpartx"; Some "-d"; Some "/dev/loop0"]])%list.
Proof.
  rewrite (do_umount_reverse_order Sim.LoopMount Sim.mounted_session
             ("", "") ("", "")
             (world Sim.mounted_session) (world Sim.mounted_session));
    vm_compute; reflexivity.
Defined.

(** X3.  [do_umount] does not swallow a failing [umount]: on a mounted
    session, when [utils.execute] raises for [umount], [do_umount]
    raises the same exception at once; the session keeps every flag as
    it was (it is still marked mounted), and neither [kpartx -d] nor
    [unget_dev] is reached. *)
Theorem do_umount_umount_raises {H : Host} (cls : MountClass) (s : state)
        (e : exn) (w1 : World) :
  mounted (self s) = true ->
  utils_execute (umount_cmd (self s)) true (world s) = (Raise e, w1) ->
  do_umount cls s =
  (Raise e, mkState (self s) w1 (trace s ++ [umount_cmd (self s)])).
Proof.
  intros Hn E1. rewrite do_umount_steps, Hn.
  rewrite (unmnt_dev_mounted s Hn), E1. reflexivity.
Qed.

(** A device that is busy on the simulated host. *)
Lemma do_umount_umount_raises_witness :
  do_umount Mount_base (Sim.reattached PNone "/dev/loop0" Samples.stuck) =
  (Raise (ProcessExecutionError "umount: device is busy"),
   mkState (self (Sim.reattached PNone "/dev/loop0" Samples.stuck))
           Samples.stuck
           (trace (Sim.reattached PNone "/dev/loop0" Samples.stuck)
            ++ [umount_cmd
                  (self (Sim.reattached PNone "/dev/loop0" Samples.stuck))])) /\
  mounted (self (Sim.reattached PNone "/dev/loop0" Samples.stuck)) = true.
Proof.
  split; [|vm_compute; reflexivity].
  apply (do_umount_umount_raises Mount_base
           (Sim.reattached PNone "/dev/loop0" Samples.stuck));
    vm_compute; reflexivity.
Defined.

(** X4.  A failing [kpartx -d] leaves the teardown half done: on a
    session that is mounted and mapped through [kpartx], when [umount]
    returns and [utils.execute] raises for [kpartx -d], [do_umount]
    raises that exception with [mounted] cleared and [mapped],
    [automapped] and [linked] as they were; [unget_dev] is not
    reached. *)
Theorem do_umount_kpartx_raises {H : Host} (cls : MountClass) (s : state)
        (x : string * string) (e : exn) (w1 w2 : World) :
  mounted (self s) = true ->
  mapped (self s) = true ->
  truthy (partition (self s)) = true ->
  automapped (self s) = false ->
  utils_execute (umount_cmd (self s)) true (world s) = (Ok x, w1) ->
  utils_execute (kpartx_d (device (self s))) true w1 = (Raise e, w2) ->
  do_umount cls s =
  (Raise e,
   mkState (with_mounted false (self s)) w2
           (trace s ++ [umount_cmd (self s); kpartx_d (device (self s))])).
Proof.
  intros Hn Hm Ht Ha E1 E2. rewrite do_umount_steps, Hn.
  rewrite (unmnt_dev_mounted s Hn), E1.
  cbn [self with_mounted mapped]. rewrite Hm.
  rewrite unmap_dev_kpartx by assumption.
  cbn [self world trace with_mounted device]. rewrite E2.
  rewrite <- app_assoc. reflexivity.
Qed.

(** Partition 1 of a loop device on the host where [kpartx -d] fails. *)
Lemma do_umount_kpartx_raises_witness :
  fst (do_umount Mount_base (Busy.reattached (PInt 1) "/dev/loop0" Sim.running))
  = Raise (ProcessExecutionError "kpartx: device is busy") /\
  mapped (self (snd (do_umount Mount_base
                       (Busy.reattached (PInt 1) "/dev/loop0" Sim.running))))
  = true /\
  linked (self (snd (do_umount Mount_base
                       (Busy.reattached (PInt 1) "/dev/loop0" Sim.running))))
  = true /\
  mounted (self (snd (do_umount Mount_base
                        (Busy.reattached (PInt 1) "/dev/loop0" Sim.running))))
  = false.
Proof.
  rewrite (@do_umount_kpartx_raises Busy.host Mount_base
             (Busy.reattached (PInt 1) "/dev/loop0" Sim.running)
             ("", "") (ProcessExecutionError "kpartx: device is busy")
             Sim.running Sim.running);
    [repeat split|..]; vm_compute; reflexivity.
Defined.

(** X5.  Partition search is not supported: with the partition selector
    [-1] and an existing raw device, [map_dev] maps nothing and runs no
    command; it records "partition search unsupported with <mode>" in
    [error] and returns the [mapped] flag as it found it. *)
Theorem map_dev_partition_search {H : Host} (cls : MountClass) (s : state)
        (dev : string) :
  device (self s) = Some dev ->
  os_path_exists (world s) dev = true ->
  partition (self s) = PInt (-1) ->
  map_dev cls s =
  (Ok (mapped (self s)),
   mkState
     (with_error ("partition search unsupported with " ++ str_opt (mode cls))
                 (self s))
     (world s) (trace s)).
Proof.
  intros Hd He Hp. rewrite (map_dev_unfold cls s dev Hd He).
  unfold map_branches, update. rewrite Hp. reflexivity.
Qed.

(** The loop backend on the simulated host, asked to search. *)
Lemma map_dev_partition_search_witness :
  map_dev Sim.LoopMount (Sim.attached (PInt (-1)) Sim.unpartitioned) =
  (Ok false,
   mkState
     (with_error "partition search unsupported with loop"
                 (self (Sim.attached (PInt (-1)) Sim.unpartitioned)))
     (world (Sim.attached (PInt (-1)) Sim.unpartitioned))
     (trace (Sim.attached (PInt (-1)) Sim.unpartitioned))).
Proof.
  apply (map_dev_partition_search Sim.LoopMount
           (Sim.attached (PInt (-1)) Sim.unpartitioned) "/dev/loop0");
    vm_compute; reflexivity.
Defined.

(** X6.  Without a partition selector ([None], [0] or an empty string)
    and with an existing raw device, [map_dev] is a pass-through: it
    returns [True], the mapped device is the raw device itself, no
    command is run, and [automapped] and [error] are left alone. *)
Theorem map_dev_whole_device {H : Host} (cls : MountClass) (s : state)
        (dev : string) :
  device (self s) = Some dev ->
  os_path_exists (world s) dev = true ->
  truthy (partition (self s)) = false ->
  map_dev cls s =
  (Ok true,
   mkState (with_mapped true (with_mapped_device (Some dev) (self s)))
           (world s) (trace s)).
Proof.
  intros Hd He Ht. rewrite (map_dev_unfold cls s dev Hd He).
  unfold map_branches, bind, update, ret.
  rewrite (falsy_not_minus_one _ Ht), Ht, Hd. reflexivity.
Qed.

(** An image without partitions on the simulated host. *)
Lemma map_dev_whole_device_witness :
  map_dev Sim.LoopMount (Sim.attached PNone Sim.unpartitioned) =
  (Ok true,
   mkState
     (with_mapped true
        (with_mapped_device (Some "/dev/loop0")
                            (self (Sim.attached PNone Sim.unpartitioned))))
     (world (Sim.attached PNone Sim.unpartitioned))
     (trace (Sim.attached PNone Sim.unpartitioned))).
Proof.
  apply (map_dev_whole_device Sim.LoopMount
           (Sim.attached PNone Sim.unpartitioned) "/dev/loop0");
    vm_compute; reflexivity.
Defined.

Section MoreMapping.
Context {H : Host}.
Variable cls : MountClass.

(** [map_dev] through [kpartx -a] when the node appears. *)
Lemma map_dev_kpartx_ok s dev oe w1 :
  device (self s) = Some dev ->
  os_path_exists (world s) dev = true ->
  eq_minus_one (partition (self s)) = false ->
  truthy (partition (self s)) = true ->
  os_path_exists (world s) (automapped_path dev (partition (self s))) = false ->
  os_path_exists (world s) (map_path dev (partition (self s))) = false ->
  utils_trycmd (kpartx_a dev) true true (world s) = (oe, w1) ->
  os_path_exists w1 (map_path dev (partition (self s))) = true ->
  map_dev cls s =
  (Ok true,
   mkState
     (with_mapped true
        (with_mapped_device (Some (map_path dev (partition (self s))))
                            (self s)))
     w1 (trace s ++ [kpartx_a dev])).
Proof.
  intros Hd He Hm1 Ht Ha Hp Ek Hq. rewrite (map_dev_unfold cls s dev Hd He).
  unfold map_branches, bind, path_exists, assert, trycmd, update, ret, raise.
  rewrite Hm1, Ht, Ha. cbn [negb]. cbv beta iota. rewrite Hp. cbn [negb].
  cbv beta iota. rewrite Ek. cbn [self world trace snd fst]. rewrite Hq.
  reflexivity.
Qed.

(** [map_dev] through the node the kernel has mapped. *)
Lemma map_dev_auto_ok s dev :
  device (self s) = Some dev ->
  os_path_exists (world s) dev = true ->
  eq_minus_one (partition (self s)) = false ->
  truthy (partition (self s)) = true ->
  os_path_exists (world s) (automapped_path dev (partition (self s))) = true ->
  map_dev cls s =
  (Ok true,
   mkState
     (with_automapped true
        (with_mapped true
           (with_mapped_device
              (Some (automapped_path dev (partition (self s)))) (self s))))
     (world s) (trace s)).
Proof.
  intros Hd He Hm1 Ht Ha. rewrite (map_dev_unfold cls s dev Hd He).
  unfold map_branches, bind, path_exists, update, ret.
  rewrite Hm1, Ht, Ha. cbn [negb]. cbv beta iota. rewrite Ha. reflexivity.
Qed.

(** [map_dev] without a partition selector. *)
Lemma map_dev_whole_ok s dev :
  device (self s) = Some dev ->
  os_path_exists (world s) dev = true ->
  truthy (partition (self s)) = false ->
  map_dev cls s =
  (Ok true,
   mkState (with_mapped true (with_mapped_device (Some dev) (self s)))
           (world s) (trace s)).
Proof.
  intros Hd He Ht. rewrite (map_dev_unfold cls s dev Hd He).
  unfold map_branches, bind, update, ret.
  rewrite (falsy_not_minus_one _ Ht), Ht, Hd. reflexivity.
Qed.

(** [map_dev] when the device-mapper node is already there. *)
Lemma map_dev_node_in_the_way s dev :
  device (self s) = Some dev ->
  os_path_exists (world s) dev = true ->
  eq_minus_one (partition (self s)) = false ->
  truthy (partition (self s)) = true ->
  os_path_exists (world s) (automapped_path dev (partition (self s))) = false ->
  os_path_exists (world s) (map_path dev (partition (self s))) = true ->
  map_dev cls s = (Raise AssertionError, s).
Proof.
  intros Hd He Hm1 Ht Ha Hp. rewrite (map_dev_unfold cls s dev Hd He).
  unfold map_branches, bind, path_exists, assert, raise, ret.
  rewrite Hm1, Ht, Ha. cbn [negb]. rewrite Hp. reflexivity.
Qed.

End MoreMapping.

(** X7.  The base class cannot mount anything: its [get_dev] sets no
    device, so [map_dev] raises [TypeError] before any command is run,
    and [do_mount] never returns, whatever the session; it ends in an
    exception after the teardown.  On a session that is neither mapped
    nor mounted the exception is that [TypeError], no command has been
    run and the session is left unlinked with no device. *)
Theorem base_do_mount_never_returns {H : Host} (s : state) :
  stages Mount_base s =
  (Raise TypeError,
   mkState (with_linked true (with_device None (self s))) (world s) (trace s)) /\
  (exists e, fst (do_mount Mount_base s) = Raise e) /\
  (mapped (self s) = false ->
   mounted (self s) = false ->
   do_mount Mount_base s =
   (Raise TypeError,
    mkState (with_linked false (with_linked true (with_device None (self s))))
            (world s) (trace s))).
Proof.
  assert (Es : stages Mount_base s =
               (Raise TypeError,
                mkState (with_linked true (with_device None (self s)))
                        (world s) (trace s))) by reflexivity.
  split; [exact Es|]. split.
  - rewrite do_mount_unfold, Es.
    destruct (do_umount Mount_base _) as [[u|e] s2]; cbn; eauto.
  - intros Hm Hn. rewrite do_mount_unfold, Es, do_umount_steps.
    cbn [self with_linked with_device mounted]. rewrite Hn.
    cbn [self with_linked with_device mapped]. rewrite Hm. reflexivity.
Qed.

(** A fresh session of the base class on the simulated host. *)
Lemma base_do_mount_never_returns_witness :
  do_mount Mount_base (Sim.fresh (PInt 1) Sim.partitioned) =
  (Raise TypeError,
   mkState
     (with_linked false
        (with_linked true
           (with_device None (self (Sim.fresh (PInt 1) Sim.partitioned)))))
     (world (Sim.fresh (PInt 1) Sim.partitioned))
     (trace (Sim.fresh (PInt 1) Sim.partitioned))) /\
  trace (snd (do_mount Mount_base (Sim.fresh (PInt 1) Sim.partitioned))) = [].
Proof.
  split; [|vm_compute; reflexivity].
  apply (proj2 (proj2 (base_do_mount_never_returns
                         (Sim.fresh (PInt 1) Sim.partitioned))));
    vm_compute; reflexivity.
Defined.

(** X8.  Mapping and unmapping through [kpartx] address the same raw
    device: when [kpartx -a] makes the device-mapper node appear and
    [kpartx -d] returns, [map_dev] followed by [unmap_dev] has run
    exactly [kpartx -a <device>] and then [kpartx -d <device>], and the
    session is unmapped again; only [mapped_device] still names the
    node. *)
Theorem kpartx_map_then_unmap {H : Host} (cls : MountClass) (s : state)
        (dev : string) (oe y : string * string) (w1 w2 : World) :
  device (self s) = Some dev ->
  os_path_exists (world s) dev = true ->
  eq_minus_one (partition (self s)) = false ->
  truthy (partition (self s)) = true ->
  os_path_exists (world s) (automapped_path dev (partition (self s))) = false ->
  os_path_exists (world s) (map_path dev (partition (self s))) = false ->
  automapped (self s) = false ->
  utils_trycmd (kpartx_a dev) true true (world s) = (oe, w1) ->
  os_path_exists w1 (map_path dev (partition (self s))) = true ->
  utils_execute (kpartx_d (Some dev)) true w1 = (Ok y, w2) ->
  unmap_dev (snd (map_dev cls s)) =
  (Ok tt,
   mkState
     (with_automapped false
        (with_mapped false
           (with_mapped_device (Some (map_path dev (partition (self s))))
                               (self s))))
     w2
     (trace s ++ [[Some "kpartx"; Some "-a"; Some dev];
                  [Some "kpartx"; Some "-d"; Some dev]])).
Proof.
  intros Hd He Hm1 Ht Ha Hp Hau Ek Hq Ex.
  rewrite (map_dev_kpartx_ok cls s dev oe w1) by assumption. cbn [snd].
  rewrite unmap_dev_kpartx by (cbn; first [reflexivity | assumption]).
  cbn [self world trace with_mapped with_mapped_device device]. rewrite Hd, Ex.
  rewrite <- app_assoc. reflexivity.
Qed.

(** Partition 1 of the attached loop device on the simulated host. *)
Lemma kpartx_map_then_unmap_witness :
  trace (snd (unmap_dev
                (snd (map_dev Mount_base
                        (Samples.released (PInt 1) Samples.kpartx_ready))))) =
  [[Some "umount"; Some "/dev/loop0"];
   [Some "kpartx"; Some "-d"; Some "/dev/loop0"];
   [Some "kpartx"; Some "-a"; Some "/dev/loop0"];
   [Some "kpartx"; Some "-d"; Some "/dev/loop0"]] /\
  mapped (self (snd (unmap_dev
                       (snd (map_dev Mount_base
                               (Samples.released (PInt 1)
                                                 Samples.kpartx_ready))))))
  = false.
Proof.
  rewrite (kpartx_map_then_unmap Mount_base
             (Samples.released (PInt 1) Samples.kpartx_ready) "/dev/loop0"
             ("", "") ("", "") Samples.kpartx_done Samples.kpartx_done);
    [split|..]; vm_compute; reflexivity.
Defined.

(** X9.  [map_dev] cannot be repeated after [kpartx -a] has mapped the
    partition: with the raw device and the device-mapper node both
    there and the auto-mapped node still absent, a second [map_dev]
    fails its assertion; it raises [AssertionError], changes nothing
    and runs no command. *)
Theorem map_dev_again_after_kpartx {H : Host} (cls : MountClass) (s : state)
        (dev : string) (oe : string * string) (w1 : World) :
  device (self s) = Some dev ->
  os_path_exists (world s) dev = true ->
  eq_minus_one (partition (self s)) = false ->
  truthy (partition (self s)) = true ->
  os_path_exists (world s) (automapped_path dev (partition (self s))) = false ->
  os_path_exists (world s) (map_path dev (partition (self s))) = false ->
  utils_trycmd (kpartx_a dev) true true (world s) = (oe, w1) ->
  os_path_exists w1 (map_path dev (partition (self s))) = true ->
  os_path_exists w1 dev = true ->
  os_path_exists w1 (automapped_path dev (partition (self s))) = false ->
  map_dev cls (snd (map_dev cls s)) =
  (Raise AssertionError, snd (map_dev cls s)).
Proof.
  intros Hd He Hm1 Ht Ha Hp Ek Hq He1 Ha1.
  rewrite (map_dev_kpartx_ok cls s dev oe w1) by assumption. cbn [snd].
  apply (map_dev_node_in_the_way cls _ dev); cbn; assumption.
Qed.

(** The same partition on the simulated host, mapped twice. *)
Lemma map_dev_again_after_kpartx_witness :
  fst (map_dev Mount_base (Samples.released (PInt 1) Samples.kpartx_ready))
  = Ok true /\
  map_dev Mount_base
    (snd (map_dev Mount_base (Samples.released (PInt 1) Samples.kpartx_ready)))
  = (Raise AssertionError,
     snd (map_dev Mount_base (Samples.released (PInt 1) Samples.kpartx_ready))).
Proof.
  split; [vm_compute; reflexivity|].
  apply (map_dev_again_after_kpartx Mount_base
           (Samples.released (PInt 1) Samples.kpartx_ready) "/dev/loop0"
           ("", "") Samples.kpartx_done);
    vm_compute; reflexivity.
Defined.

(** X10.  Where no [kpartx] is needed [map_dev] can be repeated: with an
    existing raw device and either no partition selector or a partition
    whose node the kernel has mapped, a second [map_dev] returns [True]
    again and leaves the session, the world and the command log exactly
    as the first call left them. *)
Theorem map_dev_repeatable_without_kpartx {H : Host} (cls : MountClass)
        (s : state) (dev : string) :
  device (self s) = Some dev ->
  os_path_exists (world s) dev = true ->
  truthy (partition (self s)) = false \/
  (eq_minus_one (partition (self s)) = false /\
   truthy (partition (self s)) = true /\
   os_path_exists (world s) (automapped_path dev (partition (self s))) = true) ->
  fst (map_dev cls s) = Ok true /\
  map_dev cls (snd (map_dev cls s)) = (Ok true, snd (map_dev cls s)).
Proof.
  intros Hd He [Ht | (Hm1 & Ht & Ha)].
  - rewrite (map_dev_whole_ok cls s dev Hd He Ht). cbn [fst snd].
    split; [reflexivity|].
    rewrite (map_dev_whole_ok cls _ dev) by (cbn; assumption). reflexivity.
  - rewrite (map_dev_auto_ok cls s dev Hd He Hm1 Ht Ha). cbn [fst snd].
    split; [reflexivity|].
    rewrite (map_dev_auto_ok cls _ dev) by (cbn; assumption). reflexivity.
Qed.

(** A kernel-mapped partition on the simulated host, mapped twice. *)
Lemma map_dev_repeatable_without_kpartx_witness :
  fst (map_dev Mount_base (Samples.released (PInt 1) Samples.auto_ready))
  = Ok true /\
  map_dev Mount_base
    (snd (map_dev Mount_base (Samples.released (PInt 1) Samples.auto_ready)))
  = (Ok true,
     snd (map_dev Mount_base (Samples.released (PInt 1) Samples.auto_ready))).
Proof.
  apply (map_dev_repeatable_without_kpartx Mount_base
           (Samples.released (PInt 1) Samples.auto_ready) "/dev/loop0");
    [vm_compute; reflexivity | vm_compute; reflexivity |].
  right. repeat split; vm_compute; reflexivity.
Defined.

(** X11.  A partition that the kernel has mapped is never handed to
    [kpartx]: [map_dev] followed by [unmap_dev] runs no command at all
    and leaves the world as it was; [mapped] and [automapped] are false
    again and [mapped_device] names the kernel's node. *)
Theorem automapped_map_then_unmap {H : Host} (cls : MountClass) (s : state)
        (dev : string) :
  device (self s) = Some dev ->
  os_path_exists (world s) dev = true ->
  eq_minus_one (partition (self s)) = false ->
  truthy (partition (self s)) = true ->
  os_path_exists (world s) (automapped_path dev (partition (self s))) = true ->
  unmap_dev (snd (map_dev cls s)) =
  (Ok tt,
   mkState
     (with_automapped false
        (with_mapped false
           (with_mapped_device
              (Some (automapped_path dev (partition (self s)))) (self s))))
     (world s) (trace s)).
Proof.
  intros Hd He Hm1 Ht Ha.
  rewrite (map_dev_auto_ok cls s dev Hd He Hm1 Ht Ha). cbn [snd].
  rewrite unmap_dev_quiet.
  - reflexivity.
  - reflexivity.
  - cbn. apply andb_false_r.
Qed.

(** The kernel-mapped partition on the simulated host. *)
Lemma automapped_map_then_unmap_witness :
  trace (snd (unmap_dev
                (snd (map_dev Mount_base
                        (Samples.released (PInt 1) Samples.auto_ready)))))
  = trace (Samples.released (PInt 1) Samples.auto_ready) /\
  mapped_device
    (self (snd (unmap_dev
                  (snd (map_dev Mount_base
                          (Samples.released (PInt 1) Samples.auto_ready))))))
  = Some "/dev/loop0p1".
Proof.
  rewrite (automapped_map_then_unmap Mount_base
             (Samples.released (PInt 1) Samples.auto_ready) "/dev/loop0");
    [split|..]; vm_compute; reflexivity.
Defined.

(** ** Device names *)

Section Names.

Lemma chars_app a b :
  list_ascii_of_string (a ++ b)
  = (list_ascii_of_string a ++ list_ascii_of_string b)%list.
Proof.
  induction a as [|c a IH]; cbn; [reflexivity | now rewrite IH].
Qed.

(** [rsplit] finds nothing to cut at when the separator does not
    occur. *)
Lemma rsplit1_absent sep s :
  ~ In sep (list_ascii_of_string s) -> rsplit1 sep s = None.
Proof.
  induction s as [|c s IH]; cbn; intros N; [reflexivity|].
  rewrite IH by tauto.
  destruct (Ascii.eqb c sep) eqn:E; [|reflexivity].
  apply Ascii.eqb_eq in E. subst. tauto.
Qed.

(** [rsplit] cuts at the last separator. *)
Lemma rsplit1_last sep h t :
  ~ In sep (list_ascii_of_string t) ->
  rsplit1 sep (h ++ String sep t) = Some (h, t).
Proof.
  intros N. induction h as [|c h IH]; cbn.
  - rewrite (rsplit1_absent sep t N), Ascii.eqb_refl. reflexivity.
  - rewrite IH. reflexivity.
Qed.

Lemma basename_last d b :
  ~ In "/"%char (list_ascii_of_string b) -> basename (d ++ String "/" b) = b.
Proof.
  intros N. unfold basename. rewrite (rsplit1_last _ d b N). reflexivity.
Qed.

Lemma relative_without_slash b :
  ~ In "/"%char (list_ascii_of_string b) -> isabs b = false.
Proof.
  destruct b as [|c b]; intros N; [reflexivity|].
  unfold isabs. cbn [prefix list_ascii_of_string In] in *.
  destruct (Ascii.ascii_dec "/" c) as [E|E]; [|reflexivity].
  exfalso. apply N. left. symmetry. exact E.
Qed.

(** A printed integer consists of decimal digits and, maybe, a sign. *)
Lemma uint_chars d c :
  In c (list_ascii_of_string (NilEmpty.string_of_uint d)) ->
  In c (list_ascii_of_string "0123456789").
Proof.
  induction d; cbn [NilEmpty.string_of_uint list_ascii_of_string In];
    intros I; [contradiction|..];
    (destruct I as [E | I];
     [subst; cbn; repeat (first [left; reflexivity | right])
     | exact (IHd I)]).
Qed.

Lemma int_chars z c :
  In c (list_ascii_of_string (str (PInt z))) ->
  In c (list_ascii_of_string "-0123456789").
Proof.
  unfold str, NilZero.string_of_int, NilZero.string_of_uint.
  assert (U : forall d,
             In c (list_ascii_of_string
                     match d with
                     | Decimal.Nil => "0"
                     | _ => NilEmpty.string_of_uint d
                     end) ->
             In c (list_ascii_of_string "0123456789")).
  { intros d I. destruct d; try (apply (uint_chars _ c I)).
    cbn in I |- *. tauto. }
  destruct (Z.to_int z) as [d|d]; cbn [list_ascii_of_string In].
  - intros I. right. apply (U d I).
  - intros [E | I]; [left; exact E | right; apply (U d I)].
Qed.

End Names.

Section Reattach.
Context {H : Host}.

(** The constructor on an absolute, existing path under [/dev/mapper/]:
    everything hangs on cutting the base name at its last [p]. *)
Lemma init_mapper image mount_dir part dev w t :
  isabs dev = true ->
  os_path_exists w dev = true ->
  prefix "/dev/mapper/" dev = true ->
  __init__ image mount_dir part (Some dev) w t =
  match rsplit1 "p" (basename dev) with
  | None =>
      (Raise ValueError,
       mkState (mkMount image part mount_dir "" true true true false
                        (Some dev) (Some dev)) w t)
  | Some (base, p) =>
      (Ok tt,
       mkState (mkMount image (PStr p) mount_dir "" true true true false
                        (Some (join "/dev" base)) (Some dev)) w t)
  end.
Proof.
  intros Ha He Hp.
  assert (Ht : truthy_str dev = true)
    by (destruct dev; [discriminate Hp | reflexivity]).
  unfold __init__, reset_dev, bind, get_self, update, path_exists, ret, raise.
  cbn [self device truthy_opt world trace]. rewrite Ht. cbn [negb].
  cbv beta iota. cbn [self device with_linked with_mapped with_mounted].
  rewrite Ha. cbn [world]. rewrite He, Hp.
  destruct (rsplit1 "p" (basename dev)) as [[base p]|]; reflexivity.
Qed.

Lemma mapper_prefix x : prefix "/dev/mapper/" ("/dev/mapper/" ++ x) = true.
Proof. destruct x; reflexivity. Qed.

Lemma mapper_absolute x : isabs ("/dev/mapper/" ++ x) = true.
Proof. reflexivity. Qed.

Lemma join_dev b :
  ~ In "/"%char (list_ascii_of_string b) -> join "/dev" b = "/dev/" ++ b.
Proof.
  intros N. unfold join. rewrite (relative_without_slash b N). reflexivity.
Qed.

End Reattach.

(** X12.  The constructor raises on a device-mapper name without a [p]:
    when the device hint is an absolute, existing path under
    [/dev/mapper/] whose base name contains no [p], unpacking the result
    of [rsplit] fails and [Mount(...)] raises [ValueError]. *)
Theorem init_raises_without_p {H : Host} (image mount_dir : string)
        (part : value) (dev : string) (w : World) (t : list argv) :
  isabs dev = true ->
  os_path_exists w dev = true ->
  prefix "/dev/mapper/" dev = true ->
  ~ In "p"%char (list_ascii_of_string (basename dev)) ->
  fst (__init__ image mount_dir part (Some dev) w t) = Raise ValueError.
Proof.
  intros Ha He Hp N. rewrite (init_mapper image mount_dir part dev w t Ha He Hp).
  rewrite (rsplit1_absent _ _ N). reflexivity.
Qed.

(** A logical volume on the simulated host. *)
Lemma init_raises_without_p_witness :
  fst (__init__ "disk.img" "/mnt" PNone (Some "/dev/mapper/vg0-root")
                Samples.volume [])
  = Raise ValueError.
Proof.
  apply (@init_raises_without_p Sim.host "disk.img" "/mnt" PNone
           "/dev/mapper/vg0-root" Samples.volume []);
    try (vm_compute; reflexivity).
  vm_compute. intros I.
  repeat (destruct I as [I | I]; [discriminate I|]). exact I.
Defined.

(** X13.  The constructor takes a device-mapper name apart at its last
    [p]: for a base name [b] and a partition text [n] without [/], [n]
    also without [p], a session built around the existing path
    [/dev/mapper/<b>p<n>] has device [/dev/<b>], partition [n] (as a
    string) and the path itself as mapped device, and is marked linked,
    mapped and mounted. *)
Theorem init_parses_mapper_name {H : Host} (image mount_dir : string)
        (part : value) (b n : string) (w : World) (t : list argv) :
  ~ In "/"%char (list_ascii_of_string b) ->
  ~ In "/"%char (list_ascii_of_string n) ->
  ~ In "p"%char (list_ascii_of_string n) ->
  os_path_exists w ("/dev/mapper/" ++ b ++ "p" ++ n) = true ->
  __init__ image mount_dir part (Some ("/dev/mapper/" ++ b ++ "p" ++ n)) w t =
  (Ok tt,
   mkState
     (mkMount image (PStr n) mount_dir "" true true true false
              (Some ("/dev/" ++ b)) (Some ("/dev/mapper/" ++ b ++ "p" ++ n)))
     w t).
Proof.
  intros Nb Nn Np He.
  rewrite (init_mapper image mount_dir part ("/dev/mapper/" ++ b ++ "p" ++ n)
                       w t (mapper_absolute _) He (mapper_prefix _)).
  assert (B : basename ("/dev/mapper/" ++ b ++ "p" ++ n) = b ++ String "p" n).
  { apply (basename_last "/dev/mapper" (b ++ String "p" n)).
    rewrite chars_app. intros I. apply in_app_or in I.
    destruct I as [I | [E | I]]; [tauto | discriminate E | tauto]. }
  rewrite B, (rsplit1_last _ b n Np), (join_dev b Nb). reflexivity.
Qed.

(** The example of the class on the simulated host. *)
Lemma init_parses_mapper_name_witness :
  __init__ "disk.img" "/mnt" PNone (Some ("/dev/mapper/" ++ "loop0" ++ "p" ++ "1"))
           Sim.left_over [] =
  (Ok tt,
   mkState
     (mkMount "disk.img" (PStr "1") "/mnt" "" true true true false
              (Some ("/dev/" ++ "loop0"))
              (Some ("/dev/mapper/" ++ "loop0" ++ "p" ++ "1")))
     Sim.left_over []).
Proof.
  apply (@init_parses_mapper_name Sim.host "disk.img" "/mnt" PNone
           "loop0" "1" Sim.left_over []);
    try (vm_compute; reflexivity);
    vm_compute; intros I;
    repeat (destruct I as [I | I]; [discriminate I|]); exact I.
Defined.

(** X14.  Re-attaching undoes the naming of [map_dev]: the node that
    [map_dev] asks [kpartx] for, for partition number [z] of the raw
    device [/dev/<b>], handed to the constructor as device hint (and
    existing), gives back that raw device and the printed partition
    number, which is a non-empty string, so that the teardown of the new
    session runs [kpartx -d] on the same raw device. *)
Theorem reattach_recovers_mapping {H : Host} (image mount_dir : string)
        (part : value) (b : string) (z : Z) (w : World) (t : list argv) :
  ~ In "/"%char (list_ascii_of_string b) ->
  os_path_exists w (map_path ("/dev/" ++ b) (PInt z)) = true ->
  __init__ image mount_dir part (Some (map_path ("/dev/" ++ b) (PInt z))) w t =
  (Ok tt,
   mkState
     (mkMount image (PStr (str (PInt z))) mount_dir "" true true true false
              (Some ("/dev/" ++ b)) (Some (map_path ("/dev/" ++ b) (PInt z))))
     w t) /\
  truthy (PStr (str (PInt z))) = true.
Proof.
  intros Nb He.
  assert (Digits : forall c,
             In c (list_ascii_of_string (str (PInt z))) ->
             c <> "/"%char /\ c <> "p"%char).
  { intros c I. apply int_chars in I. cbn in I.
    repeat (destruct I as [I | I]; [subst; split; discriminate|]).
    contradiction. }
  assert (Name : map_path ("/dev/" ++ b) (PInt z)
                 = "/dev/mapper/" ++ b ++ "p" ++ str (PInt z)).
  { unfold map_path.
    replace (basename ("/dev/" ++ b)) with b
      by (symmetry; apply (basename_last "/dev" b Nb)).
    reflexivity. }
  split.
  - rewrite Name in *.
    rewrite (init_mapper image mount_dir part
                         ("/dev/mapper/" ++ b ++ "p" ++ str (PInt z))
                         w t (mapper_absolute _) He (mapper_prefix _)).
    assert (B : basename ("/dev/mapper/" ++ b ++ "p" ++ str (PInt z))
                = b ++ String "p" (str (PInt z))).
    { apply (basename_last "/dev/mapper" (b ++ String "p" (str (PInt z)))).
      rewrite chars_app. intros I. apply in_app_or in I.
      destruct I as [I | [E | I]]; [tauto | discriminate E |].
      destruct (Digits _ I) as [F _]. apply F. reflexivity. }
    rewrite B, (rsplit1_last _ b (str (PInt z))), (join_dev b Nb);
      [reflexivity|].
    intros I. destruct (Digits _ I) as [_ F]. apply F. reflexivity.
  - cbn [truthy]. unfold truthy_str, str, NilZero.string_of_int,
      NilZero.string_of_uint.
    destruct (Z.to_int z) as [d|d]; [|reflexivity].
    destruct d; reflexivity.
Qed.

(** Partition 1 of [/dev/loop0] on the simulated host. *)
Lemma reattach_recovers_mapping_witness :
  map_path ("/dev/" ++ "loop0") (PInt 1) = "/dev/mapper/loop0p1" /\
  (__init__ "disk.img" "/mnt" PNone
            (Some (map_path ("/dev/" ++ "loop0") (PInt 1))) Sim.left_over [] =
   (Ok tt,
    mkState
      (mkMount "disk.img" (PStr (str (PInt 1))) "/mnt" "" true true true false
               (Some ("/dev/" ++ "loop0"))
               (Some (map_path ("/dev/" ++ "loop0") (PInt 1))))
      Sim.left_over []) /\
   truthy (PStr (str (PInt 1))) = true).
Proof.
  split; [vm_compute; reflexivity|].
  apply (@reattach_recovers_mapping Sim.host "disk.img" "/mnt" PNone
           "loop0" 1%Z Sim.left_over []);
    try (vm_compute; reflexivity).
  vm_compute. intros I.
  repeat (destruct I as [I | I]; [discriminate I|]). exact I.
Defined.

(** ** What the teardown keeps *)

Section TeardownKeeps.
Context {H : Host}.

Lemma same_but_flags_refl m : same_but_flags m m.
Proof. repeat split. Qed.

Lemma same_but_flags_trans m1 m2 m3 :
  same_but_flags m1 m2 -> same_but_flags m2 m3 -> same_but_flags m1 m3.
Proof.
  unfold same_but_flags. intros (A1 & A2 & A3 & A4 & A5 & A6)
                                (B1 & B2 & B3 & B4 & B5 & B6).
  repeat split; congruence.
Qed.

Lemma unmnt_dev_keeps s : same_but_flags (self s) (self (snd (unmnt_dev s))).
Proof.
  unfold unmnt_dev, bind, get_self, execute, update, ret.
  destruct (mounted (self s)); cbn [negb]; [|apply same_but_flags_refl].
  destruct (utils_execute (umount_cmd (self s)) true (world s))
    as [[x|e] w]; repeat split.
Qed.

Lemma unmap_dev_keeps s : same_but_flags (self s) (self (snd (unmap_dev s))).
Proof.
  unfold unmap_dev, bind, get_self, when, execute, update, ret.
  destruct (mapped (self s)); cbn [negb]; [|apply same_but_flags_refl].
  destruct (truthy (partition (self s)) && negb (automapped (self s)));
    [|repeat split].
  destruct (utils_execute (kpartx_d (device (self s))) true (world s))
    as [[x|e] w]; repeat split.
Qed.

End TeardownKeeps.

(** X15.  The teardown only clears flags: however [unmnt_dev],
    [unmap_dev] and the [do_umount] of the base class end, the image,
    the partition selector, the mount directory, the error string, the
    raw device and the mapped device of the session are what they were;
    a torn down session still names the devices it used. *)
Theorem teardown_keeps_paths {H : Host} (s : state) :
  same_but_flags (self s) (self (snd (unmnt_dev s))) /\
  same_but_flags (self s) (self (snd (unmap_dev s))) /\
  same_but_flags (self s) (self (snd (do_umount Mount_base s))).
Proof.
  split; [apply unmnt_dev_keeps|]. split; [apply unmap_dev_keeps|].
  rewrite do_umount_steps.
  destruct (if mounted (self s) then unmnt_dev s else (Ok tt, s))
    as [[u|e] s1] eqn:E1.
  - assert (K1 : same_but_flags (self s) (self s1)).
    { destruct (mounted (self s)).
      - pose proof (unmnt_dev_keeps s) as K. rewrite E1 in K. exact K.
      - inv_pair. apply same_but_flags_refl. }
    destruct (if mapped (self s1) then unmap_dev s1 else (Ok tt, s1))
      as [[v|e] s2] eqn:E2.
    + assert (K2 : same_but_flags (self s1) (self s2)).
      { destruct (mapped (self s1)).
        - pose proof (unmap_dev_keeps s1) as K. rewrite E2 in K. exact K.
        - inv_pair. apply same_but_flags_refl. }
      apply (same_but_flags_trans _ _ _ K1).
      apply (same_but_flags_trans _ _ _ K2).
      destruct (linked (self s2)); repeat split.
    + cbn [snd]. apply (same_but_flags_trans _ _ _ K1).
      destruct (mapped (self s1)).
      * pose proof (unmap_dev_keeps s1) as K. rewrite E2 in K. exact K.
      * discriminate E2.
  - cbn [snd]. destruct (mounted (self s)).
    + pose proof (unmnt_dev_keeps s) as K. rewrite E1 in K. exact K.
    + discriminate E1.
Qed.

(** ** Choosing the class *)

Section Factories.

Lemma prefix_split n : forall h,
  prefix n h = true <-> exists post, h = n ++ post.
Proof.
  induction n as [|a n IH]; intros h.
  - split; [intros _; exists h; reflexivity | intros _; destruct h; reflexivity].
  - destruct h as [|b h]; cbn [prefix].
    + split; [discriminate | intros [post E]; discriminate E].
    + destruct (Ascii.ascii_dec a b) as [E|E].
      * subst. rewrite IH. split; intros [post P]; exists post.
        -- cbn. now rewrite P.
        -- cbn in P. now inversion P.
      * split; [discriminate|]. intros [post P]. cbn in P. congruence.
Qed.

(** [needle in hay] holds exactly when [hay] has [needle] somewhere
    inside. *)
Lemma contains_split n h :
  contains n h = true <-> exists pre post, h = pre ++ n ++ post.
Proof.
  split.
  - induction h as [|c h IH]; cbn [contains]; intros E;
      apply orb_true_iff in E; destruct E as [E | E].
    + apply prefix_split in E. destruct E as [post E]. exists "", post.
      exact E.
    + discriminate E.
    + apply prefix_split in E. destruct E as [post E]. exists "", post.
      exact E.
    + destruct (IH E) as (pre & post & P). exists (String c pre), post.
      cbn. now rewrite P.
  - intros (pre & post & P). subst h.
    induction pre as [|c pre IH].
    + cbn [append]. destruct (n ++ post) eqn:E; cbn [contains];
        apply orb_true_iff; left; apply prefix_split; exists post;
        symmetry; exact E.
    + cbn [append contains]. rewrite IH. apply orb_true_r.
Qed.

End Factories.

(** X16.  [instance_for_device] chooses by the name of the device: it
    asks for the loop class exactly when ["loop"] occurs somewhere in
    the device path and for the nbd class in every other case, and in
    both cases hands the image, the mount directory, the partition and
    the device on unchanged. *)
Theorem instance_for_device_choice (imgfile mountdir : string)
        (partition : value) (device : string) :
  (import_str (instance_for_device imgfile mountdir partition device)
   = "nova.virt.disk.mount.loop.LoopMount" <->
   exists pre post, device = pre ++ "loop" ++ post) /\
  (import_str (instance_for_device imgfile mountdir partition device)
   = "nova.virt.disk.mount.nbd.NbdMount" <->
   ~ exists pre post, device = pre ++ "loop" ++ post) /\
  imgfile_arg (instance_for_device imgfile mountdir partition device) = imgfile /\
  mountdir_arg (instance_for_device imgfile mountdir partition device)
  = mountdir /\
  partition_arg (instance_for_device imgfile mountdir partition device)
  = partition /\
  device_arg (instance_for_device imgfile mountdir partition device)
  = Some device.
Proof.
  unfold instance_for_device.
  destruct (contains "loop" device) eqn:E.
  - apply contains_split in E. cbn [import_str imgfile_arg mountdir_arg
                                     partition_arg device_arg].
    split; [split; [intros _; exact E | reflexivity]|].
    split; [split; [discriminate | intros N; exfalso; exact (N E)]|].
    repeat split.
  - assert (N : ~ exists pre post, device = pre ++ "loop" ++ post).
    { intros P. apply contains_split in P. congruence. }
    cbn [import_str imgfile_arg mountdir_arg partition_arg device_arg].
    split; [split; [discriminate | intros P; contradiction]|].
    split; [split; [intros _; exact N | reflexivity]|].
    repeat split.
Qed.

(** ** The server-group fixtures *)

Section FixtureFacts.
Import Fixtures.

Lemma get_setitem k k' v d :
  get k' (setitem k v d) = if k =? k' then Some v else get k' d.
Proof.
  induction d as [|[k0 v0] d IH]; cbn [setitem get].
  - reflexivity.
  - destruct (k0 =? k) eqn:E0; cbn [get].
    + apply String.eqb_eq in E0. subst k0.
      destruct (k =? k'); reflexivity.
    + rewrite IH. destruct (k0 =? k') eqn:E1; [|reflexivity].
      apply String.eqb_eq in E1. subst k0. rewrite String.eqb_sym, E0.
      reflexivity.
Qed.

Lemma get_remove k k' d :
  get k' (remove k d) = if k =? k' then None else get k' d.
Proof.
  induction d as [|[k0 v0] d IH]; cbn [remove filter get fst].
  - destruct (k =? k'); reflexivity.
  - destruct (k0 =? k) eqn:E0; cbn [negb get]; fold (remove k d); rewrite IH.
    + apply String.eqb_eq in E0. subst k0.
      destruct (k =? k'); reflexivity.
    + destruct (k0 =? k') eqn:E1; [|reflexivity].
      apply String.eqb_eq in E1. subst k0. rewrite String.eqb_sym, E0.
      reflexivity.
Qed.

Lemma get_rename_key src dst k d :
  get k (rename_key src dst d) =
  match get src d with
  | Some v => if dst =? k then Some v else if src =? k then None else get k d
  | None => get k d
  end.
Proof.
  unfold rename_key, has_key, pop_into, pop.
  destruct (get src d) as [v|]; [|reflexivity].
  rewrite get_setitem, get_remove. reflexivity.
Qed.

Lemma get_move_or_default src dst v0 k d :
  get k (move_or_default src dst v0 d) =
  if dst =? k then Some (get_or src v0 d)
  else if src =? k then None else get k d.
Proof.
  unfold move_or_default, has_key, pop_into, pop, get_or.
  destruct (get src d) as [v|] eqn:E.
  - rewrite get_setitem, get_remove. reflexivity.
  - rewrite get_setitem. destruct (dst =? k); [reflexivity|].
    destruct (src =? k) eqn:S; [|reflexivity].
    apply String.eqb_eq in S. subst k. exact E.
Qed.

Lemma get_default_key u v k d :
  get k (default_key u v d) =
  if u =? k then Some (get_or u v d) else get k d.
Proof.
  unfold default_key, has_key, get_or.
  destruct (get u d) as [x|] eqn:E; cbn [negb].
  - destruct (u =? k) eqn:S; [|reflexivity].
    apply String.eqb_eq in S. subst k. exact E.
  - apply get_setitem.
Qed.

(** [server_group_db] as the chain of its statements. *)
Lemma server_group_db_steps U P sg :
  server_group_db U P sg =
  setitem "id" (VInt 7)
    (default_key "project_id" P
       (default_key "user_id" U
          (setitem "updated_at" VNone
             (setitem "created_at" VNone
                (setitem "deleted_at" VNone
                   (setitem "deleted" (VInt 0)
                      (move_or_default "metadata" "metadetails" (VDict [])
                         (move_or_default "members" "members" (VList [])
                            (move_or_default "policies" "policies" (VList [])
                               (rename_key "id" "uuid" sg)))))))))).
Proof. reflexivity. Qed.

End FixtureFacts.

(** Looking a key up in the result of [server_group_db]: push the
    lookup through the statements and decide the tests on literal
    keys. *)
Ltac decide_keys :=
  repeat match goal with
    | |- context [String.eqb ?a ?b] =>
        let r := eval vm_compute in (String.eqb a b) in
        match r with
        | true => change (String.eqb a b) with true
        | false => change (String.eqb a b) with false
        end
    end.

Ltac lookup_db :=
  rewrite server_group_db_steps;
  repeat (unfold Fixtures.get_or;
          rewrite ?get_setitem, ?get_default_key, ?get_move_or_default,
            ?get_rename_key;
          decide_keys; cbv iota).

(** X17.  Whatever dictionary it is given, [server_group_db] returns a
    row with the fixed fields of a database record: [id] is 7 (an [id]
    of the input never stays under that key), [deleted] is 0,
    [deleted_at], [created_at] and [updated_at] are [None], there is no
    [metadata] key, and [policies], [members], [metadetails], [user_id]
    and [project_id] are present, so that attribute access to them on
    the [AttrDict] does not raise [KeyError]. *)
Theorem server_group_db_fixed_fields (U P : Fixtures.pyval)
        (sg : Fixtures.dict) :
  Fixtures.get "id" (Fixtures.server_group_db U P sg)
  = Some (Fixtures.VInt 7) /\
  Fixtures.get "deleted" (Fixtures.server_group_db U P sg)
  = Some (Fixtures.VInt 0) /\
  Fixtures.get "deleted_at" (Fixtures.server_group_db U P sg)
  = Some Fixtures.VNone /\
  Fixtures.get "created_at" (Fixtures.server_group_db U P sg)
  = Some Fixtures.VNone /\
  Fixtures.get "updated_at" (Fixtures.server_group_db U P sg)
  = Some Fixtures.VNone /\
  Fixtures.get "metadata" (Fixtures.server_group_db U P sg) = None /\
  (forall k,
      In k ["policies"; "members"; "metadetails"; "user_id"; "project_id"] ->
      exists v,
        Fixtures.__getattr__ (Fixtures.server_group_db U P sg) k = inl v).
Proof.
  repeat (split; [lookup_db; reflexivity|]).
  intros k I. unfold Fixtures.__getattr__.
  repeat (destruct I as [I | I]; [subst k; lookup_db; eauto|]).
  contradiction.
Qed.

(** X18.  What [server_group_db] carries over from its argument: [uuid]
    is the argument's [id] when it has one (else its own [uuid], if
    any); [policies] and [members] are the argument's, or an empty list;
    [metadetails] is the argument's [metadata], or an empty dictionary;
    [user_id] and [project_id] are the argument's, or the fake ones; and
    every key outside the ones the function assigns or removes has the
    value it had. *)
Theorem server_group_db_carries_over (U P : Fixtures.pyval)
        (sg : Fixtures.dict) :
  Fixtures.get "uuid" (Fixtures.server_group_db U P sg)
  = match Fixtures.get "id" sg with
    | Some v => Some v
    | None => Fixtures.get "uuid" sg
    end /\
  Fixtures.get "policies" (Fixtures.server_group_db U P sg)
  = Some (Fixtures.get_or "policies" (Fixtures.VList []) sg) /\
  Fixtures.get "members" (Fixtures.server_group_db U P sg)
  = Some (Fixtures.get_or "members" (Fixtures.VList []) sg) /\
  Fixtures.get "metadetails" (Fixtures.server_group_db U P sg)
  = Some (Fixtures.get_or "metadata" (Fixtures.VDict []) sg) /\
  Fixtures.get "user_id" (Fixtures.server_group_db U P sg)
  = Some (Fixtures.get_or "user_id" U sg) /\
  Fixtures.get "project_id" (Fixtures.server_group_db U P sg)
  = Some (Fixtures.get_or "project_id" P sg) /\
  (forall k,
      ~ In k Fixtures.touched ->
      Fixtures.get k (Fixtures.server_group_db U P sg) = Fixtures.get k sg).
Proof.
  split; [lookup_db; reflexivity|].
  split; [lookup_db; destruct (Fixtures.get "id" sg); reflexivity|].
  split; [lookup_db; destruct (Fixtures.get "id" sg); reflexivity|].
  split; [lookup_db; destruct (Fixtures.get "id" sg); reflexivity|].
  split; [lookup_db; destruct (Fixtures.get "id" sg); reflexivity|].
  split; [lookup_db; destruct (Fixtures.get "id" sg); reflexivity|].
  intros k N.
  assert (F : forall x, In x Fixtures.touched -> (x =? k) = false).
  { intros x I. apply String.eqb_neq. intros E. subst x. exact (N I). }
  rewrite server_group_db_steps.
  repeat (rewrite ?get_setitem, ?get_default_key, ?get_move_or_default,
           ?get_rename_key;
          rewrite ?F by (cbn; repeat (first [left; reflexivity | right]))).
  destruct (Fixtures.get "id" sg); reflexivity.
Qed.

(** X19.  [server_group_template] only fills in a name: the result has
    the caller's [name], or ["test"] when none was given, every other
    key is what the caller passed, and a dictionary that has a [name] is
    returned as it is.  A template turned into a row by
    [server_group_db] keeps that name and has the template's [id] as
    its [uuid]. *)
Theorem server_group_template_name (U P : Fixtures.pyval)
        (kwargs : Fixtures.dict) :
  Fixtures.get "name" (Fixtures.server_group_template kwargs)
  = Some (Fixtures.get_or "name" (Fixtures.VStr "test") kwargs) /\
  (forall k,
      k <> "name" ->
      Fixtures.get k (Fixtures.server_group_template kwargs)
      = Fixtures.get k kwargs) /\
  (Fixtures.has_key "name" kwargs = true ->
   Fixtures.server_group_template kwargs = kwargs) /\
  Fixtures.get "name"
    (Fixtures.server_group_db U P (Fixtures.server_group_template kwargs))
  = Some (Fixtures.get_or "name" (Fixtures.VStr "test") kwargs) /\
  Fixtures.get "uuid"
    (Fixtures.server_group_db U P (Fixtures.server_group_template kwargs))
  = match Fixtures.get "id" kwargs with
    | Some v => Some v
    | None => Fixtures.get "uuid" kwargs
    end.
Proof.
  assert (Name : Fixtures.get "name" (Fixtures.server_group_template kwargs)
                 = Some (Fixtures.get_or "name" (Fixtures.VStr "test") kwargs)).
  { unfold Fixtures.server_group_template, Fixtures.setdefault,
      Fixtures.has_key, Fixtures.get_or.
    destruct (Fixtures.get "name" kwargs) as [v|] eqn:E; [exact E|].
    rewrite get_setitem. reflexivity. }
  assert (Other : forall k,
             k <> "name" ->
             Fixtures.get k (Fixtures.server_group_template kwargs)
             = Fixtures.get k kwargs).
  { intros k N. unfold Fixtures.server_group_template, Fixtures.setdefault.
    destruct (Fixtures.has_key "name" kwargs); [reflexivity|].
    rewrite get_setitem.
    destruct ("name" =? k) eqn:E; [|reflexivity].
    apply String.eqb_eq in E. congruence. }
  split; [exact Name|]. split; [exact Other|]. split.
  - intros K. unfold Fixtures.server_group_template, Fixtures.setdefault.
    rewrite K. reflexivity.
  - split.
    + rewrite server_group_db_steps.
      repeat (rewrite ?get_setitem, ?get_default_key, ?get_move_or_default,
               ?get_rename_key;
              decide_keys; cbv iota).
      rewrite Name.
      destruct (Fixtures.get "id" (Fixtures.server_group_template kwargs));
        reflexivity.
    + lookup_db. rewrite !Other by discriminate. reflexivity.
Qed.

Section FixtureKeys.
Import Fixtures.

Lemma keys_setitem k v d k' :
  In k' (keys (setitem k v d)) <-> k' = k \/ In k' (keys d).
Proof.
  unfold keys. induction d as [|[k0 v0] d IH]; cbn [setitem map fst In].
  - intuition.
  - destruct (k0 =? k) eqn:E; cbn [map fst In].
    + apply String.eqb_eq in E. subst k0. intuition.
    + rewrite IH. intuition.
Qed.

Lemma setitem_unique k v d : NoDup (keys d) -> NoDup (keys (setitem k v d)).
Proof.
  unfold keys. induction d as [|[k0 v0] d IH]; cbn [setitem map fst]; intros N.
  - constructor; [intros [] | constructor].
  - inversion N as [|? ? N0 N1]; subst.
    destruct (k0 =? k) eqn:E; cbn [map fst].
    + apply String.eqb_eq in E. subst k0. constructor; assumption.
    + constructor; [|apply IH; assumption].
      intros I. apply keys_setitem in I. destruct I as [I | I].
      * subst k0. rewrite String.eqb_refl in E. discriminate E.
      * exact (N0 I).
Qed.

Lemma remove_unique k d : NoDup (keys d) -> NoDup (keys (remove k d)).
Proof.
  unfold keys, remove. induction d as [|[k0 v0] d IH]; cbn [filter map fst];
    intros N; [constructor|].
  inversion N as [|? ? N0 N1]; subst.
  destruct (negb (k0 =? k)); cbn [map fst]; [|apply IH; assumption].
  constructor; [|apply IH; assumption].
  intros I. apply N0. apply in_map_iff in I. destruct I as ([k1 v1] & E & I).
  apply filter_In in I. destruct I as [I _]. cbn in E. subst k1.
  apply in_map_iff. exists (k0, v1). split; [reflexivity | exact I].
Qed.

Lemma pop_into_unique src dst d :
  NoDup (keys d) -> NoDup (keys (pop_into src dst d)).
Proof.
  intros N. unfold pop_into, pop. destruct (get src d); [|exact N].
  apply setitem_unique, remove_unique, N.
Qed.

End FixtureKeys.

(** X20.  The helpers keep a dictionary a dictionary: when no key occurs
    twice in the argument, no key occurs twice in the result of
    [server_group_template] or of [server_group_db]. *)
Theorem fixtures_keep_keys_unique (U P : Fixtures.pyval) (d : Fixtures.dict) :
  NoDup (Fixtures.keys d) ->
  NoDup (Fixtures.keys (Fixtures.server_group_template d)) /\
  NoDup (Fixtures.keys (Fixtures.server_group_db U P d)).
Proof.
  intros N. split.
  - unfold Fixtures.server_group_template, Fixtures.setdefault.
    destruct (Fixtures.has_key "name" d); [exact N|].
    apply setitem_unique, N.
  - rewrite server_group_db_steps.
    unfold Fixtures.default_key, Fixtures.move_or_default, Fixtures.rename_key.
    repeat match goal with
      | |- NoDup (Fixtures.keys (Fixtures.setitem _ _ _)) =>
          apply setitem_unique
      | |- NoDup (Fixtures.keys (Fixtures.pop_into _ _ _)) =>
          apply pop_into_unique
      | |- NoDup (Fixtures.keys (if ?b then _ else _)) => destruct b
      end; exact N.
Qed.

(** The dictionary the test hands over, [server_group_template(id=...)]
    with an identifier, and the row made of it. *)
Lemma fixtures_keep_keys_unique_witness :
  NoDup (Fixtures.keys
           (Fixtures.server_group_template [("id", Fixtures.VStr "sg1")])) /\
  NoDup (Fixtures.keys
           (Fixtures.server_group_db
              (Fixtures.VStr "fake_user") (Fixtures.VStr "fake_project")
              [("id", Fixtures.VStr "sg1")])) /\
  Fixtures.keys
    (Fixtures.server_group_db
       (Fixtures.VStr "fake_user") (Fixtures.VStr "fake_project")
       (Fixtures.server_group_template [("id", Fixtures.VStr "sg1")]))
  = ["name"; "uuid"; "policies"; "members"; "metadetails"; "deleted";
     "deleted_at"; "created_at"; "updated_at"; "user_id"; "project_id"; "id"].
Proof.
  assert (N : NoDup (Fixtures.keys [("id", Fixtures.VStr "sg1")]))
    by (constructor; [intros [] | constructor]).
  destruct (fixtures_keep_keys_unique
              (Fixtures.VStr "fake_user") (Fixtures.VStr "fake_project")
              [("id", Fixtures.VStr "sg1")] N) as [T D].
  split; [exact T|]. split; [exact D|]. vm_compute. reflexivity.
Defined.
